(** * msp-tool: the flight-controller session of [fc.go]

    A shallow embedding of [fc.go] (package [main] of msp-tool): the [FC]
    session record, the frame handler, the reconnect loop and the DFU flash
    sequence, followed by the properties of the specification that concern
    them.

    Conventions of the embedding.
    - A Go [string] is a [string]; a [[]byte] is a [list byte]; the
      conversion [string(b)] is [string_of_list_byte].  A slice expression
      is bounded by the capacity of the slice, not by its length: where
      the source slices a payload, the bytes its backing array holds past
      the length are part of the model.
    - [byte] fields stay [byte]s and are compared through [Byte.to_N];
      [uint16] and [uint32] values are [Z]s.
    - Output is not performed but recorded: every function that prints,
      writes a command, closes a port or sleeps returns the list of the
      [Event]s it caused, in order.  A Go panic is the [Panicked] outcome.
    - [fmt] format strings are kept as the source writes them (escape
      sequences unexpanded) next to the list of their arguments. *)

From Stdlib Require Import ZArith List String Ascii Bool Lia.
From Stdlib.Strings Require Import Byte.
Import ListNotations.

Local Open Scope string_scope.
Local Open Scope bool_scope.

(** ** Go primitives *)

Module Go.

(** The characters the source names by escape sequences. *)
Definition NL : ascii := ascii_of_nat 10.
Definition CR : ascii := ascii_of_nat 13.
Definition TAB : ascii := ascii_of_nat 9.
Definition NUL : ascii := ascii_of_nat 0.
Definition DQ : ascii := ascii_of_nat 34.

Definition str (c : ascii) : string := String c EmptyString.

Definition isEmpty (s : string) : bool :=
  match s with EmptyString => true | String _ _ => false end.

(** [s[lo:hi]] on a slice [s] whose backing array holds [spare] past the
    length of [s]: panics (here [None]) unless [lo <= hi <= cap(s)], and
    otherwise reaches into [spare] when [hi] is past the length. *)
Definition slice {A : Type} (lo hi : nat) (s spare : list A)
  : option (list A) :=
  if (lo <=? hi)%nat && (hi <=? List.length s + List.length spare)%nat
  then Some (firstn (hi - lo) (skipn lo (s ++ spare)%list))
  else None.

(** [s[lo:]], which is [s[lo:len(s)]]: panics unless [lo <= len(s)]. *)
Definition sliceFrom {A : Type} (lo : nat) (s : list A) : option (list A) :=
  if (lo <=? List.length s)%nat then Some (skipn lo s) else None.

(** [strings.HasPrefix]. *)
Definition HasPrefix (s pre : string) : bool := prefix pre s.

(** [strings.HasSuffix]:
    [len(s) >= len(suffix) && s[len(s)-len(suffix):] == suffix]. *)
Definition HasSuffix (s suffix : string) : bool :=
  (length suffix <=? length s)%nat
  && (substring (length s - length suffix) (length suffix) s =? suffix).

(** [strings.Contains]: some position of [s] starts with [sub]. *)
Fixpoint Contains (s sub : string) : bool :=
  prefix sub s
  || match s with
     | EmptyString => false
     | String _ s' => Contains s' sub
     end.

Fixpoint inCutset (c : ascii) (cutset : string) : bool :=
  match cutset with
  | EmptyString => false
  | String d rest => Ascii.eqb c d || inCutset c rest
  end.

Fixpoint TrimLeft (s cutset : string) : string :=
  match s with
  | EmptyString => EmptyString
  | String c s' => if inCutset c cutset then TrimLeft s' cutset else s
  end.

Fixpoint TrimRight (s cutset : string) : string :=
  match s with
  | EmptyString => EmptyString
  | String c s' =>
      match TrimRight s' cutset with
      | EmptyString => if inCutset c cutset then EmptyString else str c
      | t => String c t
      end
  end.

(** [strings.Trim] with a cutset of single-byte characters. *)
Definition Trim (s cutset : string) : string :=
  TrimRight (TrimLeft s cutset) cutset.

(** [strings.Split(s, sep)] for a one-character separator: the pieces
    between the separators, one more than there are separators. *)
Fixpoint Split (s : string) (sep : ascii) : list string :=
  match s with
  | EmptyString => [EmptyString]
  | String c s' =>
      if Ascii.eqb c sep then EmptyString :: Split s' sep
      else match Split s' sep with
           | [] => [str c]
           | piece :: pieces => String c piece :: pieces
           end
  end.

(** [s[n:]] on a string known to be at least [n] long. *)
Definition drop (n : nat) (s : string) : string :=
  substring n (length s - n) s.

(** [filepath.Ext]: the suffix of [path] that starts at the last dot of
    its last element; empty when that element has no dot. *)
Fixpoint Ext (path : string) : string :=
  match path with
  | EmptyString => EmptyString
  | String c rest =>
      match Ext rest with
      | EmptyString =>
          if Ascii.eqb c "."%char
          then (if Contains rest "/" then EmptyString else path)
          else EmptyString
      | e => e
      end
  end.

(** The part of a path after its last separator. *)
Fixpoint afterLastSlash (path : string) : string :=
  match path with
  | EmptyString => EmptyString
  | String c rest =>
      if Contains rest "/" then afterLastSlash rest
      else if Ascii.eqb c "/"%char then rest else path
  end.

Definition isRooted (path : string) : bool :=
  match path with
  | String c _ => Ascii.eqb c "/"%char
  | EmptyString => false
  end.

(** The elements of a path as [filepath.Clean] keeps them: empty elements
    and [.] are dropped, and [..] removes the element before it, is
    dropped at the root, and is kept where nothing is left to remove.
    [kept] holds the elements kept so far, last first. *)
Fixpoint cleanElements (rooted : bool) (elements kept : list string)
  : list string :=
  match elements with
  | [] => rev kept
  | e :: rest =>
      if isEmpty e || (e =? ".") then cleanElements rooted rest kept
      else if e =? ".." then
        match kept with
        | top :: kept' =>
            if top =? ".." then cleanElements rooted rest (e :: kept)
            else cleanElements rooted rest kept'
        | [] =>
            if rooted then cleanElements rooted rest []
            else cleanElements rooted rest [e]
        end
      else cleanElements rooted rest (e :: kept)
  end.

(** [filepath.Clean] on a path with [/] as separator. *)
Definition Clean (path : string) : string :=
  let rooted := isRooted path in
  match cleanElements rooted (Split path "/"%char) [], rooted with
  | [], true => "/"
  | [], false => "."
  | elements, true => "/" ++ concat "/" elements
  | elements, false => concat "/" elements
  end.

(** [filepath.Join] of two elements: empty elements are ignored and the
    result is cleaned. *)
Definition Join (dir name : string) : string :=
  if negb (isEmpty dir) then Clean (dir ++ "/" ++ name)
  else if negb (isEmpty name) then Clean name
  else EmptyString.

(** [filepath.Base]: the last element of the path, trailing separators
    removed first. *)
Definition Base (path : string) : string :=
  if isEmpty path then "."
  else
    let path := TrimRight path "/" in
    if isEmpty path then "/" else afterLastSlash path.

End Go.

(** ** The MSP codec, as far as [fc.go] uses it

    The codec ([MSP], [MSPFrame], the command codes and the flag
    constants) lives in another file of the package.  What [fc.go] needs
    of it is declared here. *)

(** The command codes named by [fc.go].  The handler only ever switches
    on them, and Go rejects a switch with two equal constant cases, so
    they are pairwise distinct: an enumeration, with [mspOther] for every
    code that is none of the named ones. *)
Inductive MSPCode : Type :=
| mspAPIVersion
| mspFCVariant
| mspFCVersion
| mspBoardInfo
| mspBuildInfo
| mspFeature
| mspSetFeature
| mspCFSerialConfig
| mspSetCFSerialConfig
| mspReboot
| mspEepromWrite
| mspDebugMsg
| mspOther (code : Z).

(** Modelled from the spec: [MSPSerialConfig], one entry of the serial
    port configuration.  The data model gives an entry as
    { identifier, functionMask: 16-bit flags }. *)
Record MSPSerialConfig : Type := mkSerialConfig {
  Identifier : byte;
  FunctionMask : Z
}.

(** An open connection to the board ([*MSP]), known by the number the
    transport gave it. *)
Inductive MSP : Type := Port (id : nat).

(** The destination of the textual output ([io.Writer]). *)
Inductive Writer : Type := OsStdout | CustomWriter (id : nat).

(** What is passed to [fmt] verbs and to [WriteCmd]. *)
Inductive Value : Type :=
| VString (s : string)
| VByte (b : byte)
| VInt (n : Z)
| VUint32 (n : Z)
| VBytes (p : list byte)
| VCode (c : MSPCode)
| VSerialConfigs (l : list MSPSerialConfig).

(** The observable actions of a session. *)
Inductive Event : Type :=
| Printed (w : Writer) (format : string) (args : list Value)
| Wrote (port : MSP) (code : MSPCode) (args : list Value)
| ClosedPort (port : MSP)
| Slept (milliseconds : Z)
| RebootedIntoBootloader (port : MSP)
| Executed (name : string) (args : list string) (env : list string)
           (dir : string).

(** ** Computations that act and may panic *)

Inductive Run (A : Type) : Type :=
| Done (a : A) (trace : list Event)
| Panicked (reason : string) (trace : list Event).

Arguments Done {A} a trace.
Arguments Panicked {A} reason trace.

Definition ret {A : Type} (a : A) : Run A := Done a [].

Definition bind {A B : Type} (m : Run A) (k : A -> Run B) : Run B :=
  match m with
  | Done a t =>
      match k a with
      | Done b t' => Done b (t ++ t')
      | Panicked r t' => Panicked r (t ++ t')
      end
  | Panicked r t => Panicked r t
  end.

Definition emit (e : Event) : Run unit := Done tt [e].

Definition panic {A : Type} (reason : string) : Run A := Panicked reason [].

Declare Scope run_scope.
Delimit Scope run_scope with run.
Notation "x <- m ;; k" := (bind m (fun x => k))
  (at level 61, m at next level, right associativity) : run_scope.
Notation "m ;; k" := (bind m (fun _ => k))
  (at level 61, right associativity) : run_scope.
Local Open Scope run_scope.

Definition trace {A : Type} (m : Run A) : list Event :=
  match m with Done _ t => t | Panicked _ t => t end.

(** The commands a trace sends to the board, in order. *)
Fixpoint commands (t : list Event) : list (MSPCode * list Value) :=
  match t with
  | [] => []
  | Wrote _ c args :: t' => (c, args) :: commands t'
  | _ :: t' => commands t'
  end.

(** The lines a trace prints, as format and arguments. *)
Fixpoint printed (t : list Event) : list (string * list Value) :=
  match t with
  | [] => []
  | Printed _ fmt args :: t' => (fmt, args) :: printed t'
  | _ :: t' => printed t'
  end.

(** ** Frames *)

Module Frame.

(** Modelled from the spec: the codec's [MSPFrame], given as
    Frame{code, rawPayload, typedFieldReader}.  [Byte] is the accessor to
    one raw payload byte; the typed reader decodes fixed-width
    little-endian fields from the front of the payload that is still
    unread, and reading past the end of the payload signals the
    distinguishable end-of-data condition [EOF] rather than an error.
    [Payload] is a slice: [Spare] is what its backing array holds past its
    length, so that the capacity of [Payload] is the length of both. *)
Record MSPFrame : Type := mkFrameOver {
  Code : MSPCode;
  Payload : list byte;
  Spare : list byte
}.

(** A frame whose payload fills its backing array. *)
Definition mkFrame (code : MSPCode) (payload : list byte) : MSPFrame :=
  mkFrameOver code payload [].

Inductive ReadError : Type := EOF | ErrUnexpectedEOF.

Definition Byte (fr : MSPFrame) (i : nat) : Run byte :=
  match nth_error (Payload fr) i with
  | Some b => ret b
  | None => panic "index out of range"
  end.

Definition le16 (b0 b1 : byte) : Z :=
  Z.of_N (Byte.to_N b0) + 256 * Z.of_N (Byte.to_N b1).

Definition le32 (b0 b1 b2 b3 : byte) : Z :=
  Z.of_N (Byte.to_N b0) + 256 * Z.of_N (Byte.to_N b1)
  + 65536 * Z.of_N (Byte.to_N b2) + 16777216 * Z.of_N (Byte.to_N b3).

(** [fr.Read(&x)] for [x] a [uint32], on the unread part of the payload:
    the value and what is then left unread. *)
Definition ReadUint32 (unread : list byte)
  : ReadError + (Z * list byte) :=
  match unread with
  | [] => inl EOF
  | b0 :: b1 :: b2 :: b3 :: rest => inr (le32 b0 b1 b2 b3, rest)
  | _ => inl ErrUnexpectedEOF
  end.

(** [fr.Read(&cfg)] for [cfg] an [MSPSerialConfig]. *)
Definition ReadSerialConfig (unread : list byte)
  : ReadError + (MSPSerialConfig * list byte) :=
  match unread with
  | [] => inl EOF
  | id :: b0 :: b1 :: rest => inr (mkSerialConfig id (le16 b0 b1), rest)
  | _ => inl ErrUnexpectedEOF
  end.

End Frame.
Import Frame.

(** ** The session: [FC] and its frame handler *)

Inductive Error : Type :=
| ErrorsNew (text : string)
| Errorf (format : string) (args : list Value)
| ExternalError (what : string).

(** The text of an error before its verbs are filled in. *)
Definition errorText (err : Error) : string :=
  match err with
  | ErrorsNew text => text
  | Errorf format _ => format
  | ExternalError what => what
  end.

Record FCOptions : Type := mkOptions {
  PortName : string;
  BaudRate : Z;
  Stdout : option Writer;
  EnableDebugTrace : bool
}.

Record FC : Type := mkFC {
  opts : FCOptions;
  msp : option MSP;
  variant : string;
  versionMajor : byte;
  versionMinor : byte;
  versionPatch : byte;
  boardID : string;
  targetName : string;
  features : Z
}.

Definition stderr (o : FCOptions) : option Writer := Stdout o.

Definition set_variant (f : FC) (v : string) : FC :=
  mkFC (opts f) (msp f) v (versionMajor f) (versionMinor f) (versionPatch f)
       (boardID f) (targetName f) (features f).

Definition set_version (f : FC) (major minor patch : byte) : FC :=
  mkFC (opts f) (msp f) (variant f) major minor patch
       (boardID f) (targetName f) (features f).

Definition set_boardID (f : FC) (b : string) : FC :=
  mkFC (opts f) (msp f) (variant f) (versionMajor f) (versionMinor f)
       (versionPatch f) b (targetName f) (features f).

Definition set_targetName (f : FC) (t : string) : FC :=
  mkFC (opts f) (msp f) (variant f) (versionMajor f) (versionMinor f)
       (versionPatch f) (boardID f) t (features f).

Definition set_features (f : FC) (m : Z) : FC :=
  mkFC (opts f) (msp f) (variant f) (versionMajor f) (versionMinor f)
       (versionPatch f) (boardID f) (targetName f) m.

Definition set_msp (f : FC) (m : option MSP) : FC :=
  mkFC (opts f) m (variant f) (versionMajor f) (versionMinor f)
       (versionPatch f) (boardID f) (targetName f) (features f).

(** [f.msp.WriteCmd(code, args...)]; the result is ignored by every caller.
    On a nil [msp] the call dereferences a nil pointer. *)
Definition WriteCmd (f : FC) (code : MSPCode) (args : list Value) : Run unit :=
  match msp f with
  | Some port => emit (Wrote port code args)
  | None => panic "nil pointer dereference"
  end.

(** [f.printf]: formats onto [f.opts.Stdout]. *)
Definition printf (f : FC) (format : string) (args : list Value) : Run unit :=
  match Stdout (opts f) with
  | Some w => emit (Printed w format args)
  | None => panic "nil pointer dereference"
  end.

Definition updateInfo (f : FC) : Run unit :=
  WriteCmd f mspAPIVersion [] ;;
  WriteCmd f mspFCVariant [] ;;
  WriteCmd f mspFCVersion [] ;;
  WriteCmd f mspBoardInfo [] ;;
  WriteCmd f mspBuildInfo [] ;;
  WriteCmd f mspFeature [] ;;
  WriteCmd f mspCFSerialConfig [].

(** [NewFC], given what [NewMSP] returned. *)
Definition NewFC (o : FCOptions) (opened : Error + MSP) : Run (Error + FC) :=
  match opened with
  | inl err => ret (inl err)
  | inr port =>
      let o' := match Stdout o with
                | None => mkOptions (PortName o) (BaudRate o) (Some OsStdout)
                                    (EnableDebugTrace o)
                | Some _ => o
                end in
      let fc := mkFC o' (Some port) EmptyString x00 x00 x00
                     EmptyString EmptyString 0 in
      updateInfo fc ;;
      ret (inr fc)
  end.

Definition reset (f : FC) : FC :=
  mkFC (opts f) (msp f) EmptyString x00 x00 x00 EmptyString EmptyString 0.

(** The summary line of [printInfo]. *)
Definition infoFormat : string := "%s %d.%d.%d (board %s%s)\n".

Definition printInfo (f : FC) : Run unit :=
  if negb (Go.isEmpty (variant f))
     && negb (Byte.eqb (versionMajor f) x00)
     && negb (Go.isEmpty (boardID f))
  then
    let targetName' :=
      if negb (Go.isEmpty (targetName f))
      then ", target " ++ targetName f
      else EmptyString in
    printf f infoFormat
           [VString (variant f); VByte (versionMajor f);
            VByte (versionMinor f); VByte (versionPatch f);
            VString (boardID f); VString targetName']
  else ret tt.

Definition versionGte (f : FC) (major minor patch : byte) : bool :=
  let n := Byte.to_N in
  (n major <? n (versionMajor f))%N
  || ((n (versionMajor f) =? n major)%N && (n minor <? n (versionMinor f))%N)
  || ((n (versionMajor f) =? n major)%N && (n (versionMinor f) =? n minor)%N
      && (n patch <=? n (versionPatch f))%N).

Definition shouldEnableDebugTrace (f : FC) : bool :=
  EnableDebugTrace (opts f) && (variant f =? "INAV") && versionGte f x01 x09 x00.

(** [Go.slice] as a step of a handler. *)
Definition sliced {A : Type} (r : option (list A)) : Run (list A) :=
  match r with
  | Some l => ret l
  | None => panic "slice bounds out of range"
  end.

Section Session.

(** The flag constants of the codec: the debug-trace bit of the feature
    mask ([uint32]) and the two function bits of a serial port
    ([uint16]). *)
Variable mspFCFeatureDebugTrace : Z.
Variable serialFunctionMSP : Z.
Variable serialFunctionDebugTrace : Z.

(** The reading loop of the [mspCFSerialConfig] case: every entry up to
    the end of the payload, and whether one of them has both function
    bits.  Each read takes bytes off a finite payload, so a [fuel] above
    its length is never used up. *)
Fixpoint readPorts (fuel : nat) (unread : list byte)
         (hasDebugTraceMSPPort : bool) (serialConfigs : list MSPSerialConfig)
  : Run (bool * list MSPSerialConfig) :=
  match fuel with
  | O => panic "readPorts: out of fuel"
  | S fuel' =>
      match ReadSerialConfig unread with
      | inl EOF => ret (hasDebugTraceMSPPort, serialConfigs)
      | inl ErrUnexpectedEOF => panic "unexpected EOF"
      | inr (cfg, rest) =>
          let mask := Z.lor serialFunctionMSP serialFunctionDebugTrace in
          readPorts fuel' rest
            (if (Z.land (FunctionMask cfg) mask =? mask)%Z
             then true else hasDebugTraceMSPPort)
            (serialConfigs ++ [cfg])
      end
  end.

(** The second loop of that case: the first entry with the MSP bit gets
    the debug-trace bit, and the loop stops there. *)
Fixpoint enableOnFirstMSPPort (f : FC) (serialConfigs : list MSPSerialConfig)
  : Run (list MSPSerialConfig) :=
  match serialConfigs with
  | [] => ret []
  | cfg :: rest =>
      if negb (Z.land (FunctionMask cfg) serialFunctionMSP =? 0)%Z then
        printf f "Enabling FUNCTION_DEBUG_TRACE on serial port %v\n"
               [VByte (Identifier cfg)] ;;
        ret (mkSerialConfig (Identifier cfg)
               (Z.lor (FunctionMask cfg) serialFunctionDebugTrace) :: rest)
      else
        rest' <- enableOnFirstMSPPort f rest ;;
        ret (cfg :: rest')
  end.

Definition handleFrame (f : FC) (fr : MSPFrame) : Run FC :=
  match Code fr with
  | mspAPIVersion =>
      b1 <- Byte fr 1 ;;
      b2 <- Byte fr 2 ;;
      b0 <- Byte fr 0 ;;
      printf f "MSP API version %d.%d (protocol %d)\n"
             [VByte b1; VByte b2; VByte b0] ;;
      ret f
  | mspFCVariant =>
      let f := set_variant f (string_of_list_byte (Payload fr)) in
      printInfo f ;;
      ret f
  | mspFCVersion =>
      major <- Byte fr 0 ;;
      minor <- Byte fr 1 ;;
      patch <- Byte fr 2 ;;
      let f := set_version f major minor patch in
      printInfo f ;;
      ret f
  | mspBoardInfo =>
      id <- sliced (Go.slice 0 4 (Payload fr) (Spare fr)) ;;
      let f := set_boardID f (string_of_list_byte id) in
      f <- (if (9 <=? List.length (Payload fr))%nat then
              lengthByte <- Byte fr 8 ;;
              let targetNameLength := N.to_nat (Byte.to_N lengthByte) in
              if (8 + targetNameLength <? List.length (Payload fr))%nat then
                name <- sliced (Go.slice 9 (9 + targetNameLength)
                                         (Payload fr) (Spare fr)) ;;
                ret (set_targetName f (string_of_list_byte name))
              else ret f
            else ret f) ;;
      printInfo f ;;
      ret f
  | mspBuildInfo =>
      buildDate <- sliced (Go.slice 0 11 (Payload fr) (Spare fr)) ;;
      buildTime <- sliced (Go.slice 11 19 (Payload fr) (Spare fr)) ;;
      rev <- sliced (Go.sliceFrom 19 (Payload fr)) ;;
      printf f "Build %s (built on %s @ %s)\n"
             [VString (string_of_list_byte rev);
              VString (string_of_list_byte buildDate);
              VString (string_of_list_byte buildTime)] ;;
      ret f
  | mspFeature =>
      let f := match ReadUint32 (Payload fr) with
               | inr (v, _) => set_features f v
               | inl _ => f
               end in
      if (Z.land (features f) mspFCFeatureDebugTrace =? 0)%Z
         && shouldEnableDebugTrace f
      then
        printf f "Enabling FEATURE_DEBUG_TRACE\n" [] ;;
        let f := set_features f (Z.lor (features f) mspFCFeatureDebugTrace) in
        WriteCmd f mspSetFeature [VUint32 (features f)] ;;
        WriteCmd f mspEepromWrite [] ;;
        ret f
      else ret f
  | mspCFSerialConfig =>
      if shouldEnableDebugTrace f then
        r <- readPorts (S (List.length (Payload fr))) (Payload fr) false [] ;;
        let '(hasDebugTraceMSPPort, serialConfigs) := r in
        if negb hasDebugTraceMSPPort then
          serialConfigs <- enableOnFirstMSPPort f serialConfigs ;;
          WriteCmd f mspSetCFSerialConfig [VSerialConfigs serialConfigs] ;;
          WriteCmd f mspEepromWrite [] ;;
          ret f
        else ret f
      else ret f
  | mspReboot =>
      printf f "Rebooting board...\n" [] ;;
      ret f
  | mspDebugMsg =>
      let s := Go.Trim (string_of_list_byte (Payload fr))
                 (String " " (String Go.CR (String Go.NL
                    (String Go.TAB (String Go.NUL EmptyString))))) in
      printf f "[DEBUG] %s\n" [VString s] ;;
      ret f
  | mspSetFeature => ret f
  | mspSetCFSerialConfig => ret f
  | mspEepromWrite => ret f
  | mspOther _ =>
      printf f "Unhandled MSP frame %d with payload %v\n"
             [VCode (Code fr); VBytes (Payload fr)] ;;
      ret f
  end.


(** [reconnect]'s loop, given what the successive calls of [NewMSP]
    return ([None] for an error).  The loop only ends on an open that
    succeeds: when the listed attempts are used up before that, the
    result is [None], the session still reconnecting.  Otherwise the
    result is the session and the attempts not yet made. *)
Fixpoint reconnectLoop (f : FC) (opens : list (option MSP))
  : Run (option (FC * list (option MSP))) :=
  match opens with
  | [] => ret None
  | Some port :: opens' =>
      printf f "Reconnected to %s @ %dbps\n"
             [VString (PortName (opts f)); VInt (BaudRate (opts f))] ;;
      let f := reset f in
      let f := set_msp f (Some port) in
      updateInfo f ;;
      ret (Some (f, opens'))
  | None :: opens' =>
      emit (Slept 1) ;;
      reconnectLoop f opens'
  end.

Definition reconnect (f : FC) (opens : list (option MSP))
  : Run (option (FC * list (option MSP))) :=
  f <- match msp f with
       | Some port => emit (ClosedPort port) ;; ret (set_msp f None)
       | None => ret f
       end ;;
  reconnectLoop f opens.

(** [Reboot]. *)
Definition Reboot (f : FC) : Run unit := WriteCmd f mspReboot [].

(** What one call of [f.msp.ReadFrame()] returns. *)
Inductive ReadFrameResult : Type :=
| GotFrame (fr : MSPFrame)
| GotEOF
| GotMSPError (err : Error)
| GotError (err : Error).

(** Where the receive loop stands once the listed reads are consumed:
    waiting for the next frame, or still inside [reconnect]. *)
Inductive LoopState : Type :=
| Receiving (f : FC) (opens : list (option MSP))
| Reconnecting.

(** [StartUpdating] run against the results of the successive reads and
    opens.  It never returns; it stops only by a panic. *)
Fixpoint StartUpdating (f : FC) (reads : list ReadFrameResult)
         (opens : list (option MSP)) : Run LoopState :=
  match reads with
  | [] => ret (Receiving f opens)
  | GotFrame fr :: reads' =>
      f <- handleFrame f fr ;;
      StartUpdating f reads' opens
  | GotEOF :: reads' =>
      printf f "Board disconnected, trying to reconnect...\n" [] ;;
      r <- reconnect f opens ;;
      match r with
      | Some (f, opens') => StartUpdating f reads' opens'
      | None => ret Reconnecting
      end
  | GotMSPError err :: reads' =>
      printf f "%v\n" [VString (errorText err)] ;;
      StartUpdating f reads' opens
  | GotError err :: reads' => panic "read error"
  end.

Definition HasDetectedTargetName (f : FC) : bool :=
  negb (Go.isEmpty (targetName f)).

End Session.

(** ** Regular expressions, as far as [regexpFind] uses them *)

Module Regexp.

(** The syntax the three patterns of [dfuFlash] are written in:
    literal text, one character of a class, concatenation, greedy and
    lazy repetition, and the capturing group number one. *)
Inductive regex : Type :=
| Lit (text : string)
| Class (member : ascii -> bool)
| Cat (r1 r2 : regex)
| Star (greedy : bool) (r : regex)
| Plus (greedy : bool) (r : regex)
| Group (r : regex).

(** One way of matching at the front of a text: what was consumed, what
    is left, and the text of group one so far. *)
Definition way : Type := (string * string * string)%type.

Definition after (m1 : string) (w : way) : way :=
  let '(m2, unread, cap) := w in (m1 ++ m2, unread, cap).

Fixpoint stripPrefix (lit s : string) : option string :=
  match lit, s with
  | EmptyString, _ => Some s
  | String a lit', String b s' =>
      if Ascii.eqb a b then stripPrefix lit' s' else None
  | String _ _, EmptyString => None
  end.

(** Repetition of [step]: the ways are listed in the order a
    backtracking matcher tries them, a greedy repetition trying one more
    round before stopping and a lazy one stopping first.  A round that
    consumes nothing is not repeated. *)
Fixpoint iter (greedy : bool) (step : string -> string -> list way)
         (fuel : nat) (s cap : string) : list way :=
  match fuel with
  | O => [(EmptyString, s, cap)]
  | S fuel' =>
      let more :=
        flat_map (fun w : way =>
                    let '(m1, unread, cap1) := w in
                    if Go.isEmpty m1 then []
                    else map (after m1) (iter greedy step fuel' unread cap1))
                 (step s cap) in
      let stop := [(EmptyString, s, cap)] in
      if greedy then more ++ stop else stop ++ more
  end.

(** All the ways [r] matches at the front of [s], preferred first. *)
Fixpoint ways (r : regex) (s cap : string) {struct r} : list way :=
  match r with
  | Lit text =>
      match stripPrefix text s with
      | Some unread => [(text, unread, cap)]
      | None => []
      end
  | Class member =>
      match s with
      | String c unread => if member c then [(Go.str c, unread, cap)] else []
      | EmptyString => []
      end
  | Cat r1 r2 =>
      flat_map (fun w : way =>
                  let '(m1, unread, cap1) := w in
                  map (after m1) (ways r2 unread cap1))
               (ways r1 s cap)
  | Star greedy r1 => iter greedy (ways r1) (S (length s)) s cap
  | Plus greedy r1 =>
      flat_map (fun w : way =>
                  let '(m1, unread, cap1) := w in
                  map (after m1)
                      (iter greedy (ways r1) (S (length unread)) unread cap1))
               (ways r1 s cap)
  | Group r1 =>
      map (fun w : way => let '(m, unread, _) := w in (m, unread, m))
          (ways r1 s cap)
  end.

(** [FindStringSubmatch] of a compiled pattern: the leftmost position where the
    pattern matches, and there the preferred way; the result holds the
    whole match and group one, and is empty (nil) without a match. *)
Fixpoint FindStringSubmatch (r : regex) (s : string) : list string :=
  match ways r s EmptyString with
  | (m, _, cap) :: _ => [m; cap]
  | [] =>
      match s with
      | EmptyString => []
      | String _ s' => FindStringSubmatch r s'
      end
  end.

Definition isDigit (c : ascii) : bool :=
  let n := nat_of_ascii c in (48 <=? n)%nat && (n <=? 57)%nat.

(** [.]: any character but a newline. *)
Definition isDot (c : ascii) : bool := negb (Ascii.eqb c Go.NL).

(** [[\dx]]. *)
Definition isDigitOrX (c : ascii) : bool :=
  isDigit c || Ascii.eqb c "x"%char.

End Regexp.
Import Regexp.

(** ** Flashing through DFU *)

Definition dfuDevicePrefix : string := "Found DFU: ".
Definition internalFlashMarker : string := "@Internal Flash  /".

(** An entry of a directory listing ([os.FileInfo]): its name and its
    modification time, an instant on the time line. *)
Record FileInfo : Type := mkFileInfo {
  Name : string;
  ModTime : Z
}.

(** One run of [dfu-util --list]: what [cmd.Run()] returned and what the
    tool wrote on its standard output. *)
Record ListRun : Type := mkListRun {
  runError : option Error;
  output : string
}.

(** What the world outside the program answers during one [Flash]: the
    lookup of [dfu-util], the build, the directory listing (which
    [ioutil.ReadDir] hands over sorted by file name), the reboot command,
    the successive readings of the clock (in nanoseconds), the successive
    runs of [dfu-util --list] and the run that flashes. *)
Record World : Type := mkWorld {
  lookPath : Error + string;
  makeRun : option Error;
  readDir : Error + list FileInfo;
  rebootIntoBootloader : option Error;
  clock : list Z;
  listings : list ListRun;
  flashRun : option Error
}.

(** What a call has come to when the listed answers of the world are
    used up: it returned, or it is still polling. *)
Inductive Outcome (A : Type) : Type :=
| Returned (a : A)
| StillPolling.

Arguments Returned {A} a.
Arguments StillPolling {A}.

(** [alt=(\d+)] *)
Definition altPattern : regex :=
  Cat (Lit "alt=") (Group (Plus true (Class isDigit))).

(** [serial="(.*?)"] *)
Definition serialPattern : regex :=
  Cat (Lit ("serial=" ++ Go.str Go.DQ))
      (Cat (Group (Star false (Class isDot))) (Lit (Go.str Go.DQ))).

(** [Internal Flash  /([\dx]*?)/] *)
Definition offsetPattern : regex :=
  Cat (Lit "Internal Flash  /")
      (Cat (Group (Star false (Class isDigitOrX))) (Lit "/")).

Definition regexpFind (pattern : regex) (s : string) : string :=
  let m := FindStringSubmatch pattern s in
  if (1 <? List.length m)%nat then nth 1 m EmptyString else EmptyString.

(** The loop of [Flash] over the directory entries, one step: [binary] is
    the entry retained so far. *)
Definition retain (targetName : string) (binary : option FileInfo)
           (f : FileInfo) : option FileInfo :=
  let name := Name f in
  if Go.Ext name =? ".bin" then
    let nonExt := substring 0 (length name - 4) name in
    if Go.HasSuffix nonExt targetName then
      match binary with
      | None => Some f
      | Some b => if (ModTime b <? ModTime f)%Z then Some f else binary
      end
    else binary
  else binary.

Definition locateBinary (targetName : string) (files : list FileInfo)
  : option FileInfo :=
  fold_left (retain targetName) files None.

Definition dfuReboot (f : FC) (answer : option Error) : Run (option Error) :=
  match msp f with
  | Some port => emit (RebootedIntoBootloader port) ;; ret answer
  | None => panic "nil pointer dereference"
  end.

(** The loop of [dfuList] over the lines of the output. *)
Fixpoint dfuLines (lines : list string) : list string :=
  match lines with
  | [] => []
  | ll :: lines' =>
      let ll := Go.Trim ll (String Go.NL (String Go.CR (String Go.TAB " "))) in
      if Go.HasPrefix ll dfuDevicePrefix
      then Go.drop (length dfuDevicePrefix) ll :: dfuLines lines'
      else dfuLines lines'
  end.

Definition dfuList (dfuPath : string) (run : ListRun)
  : Run (list string * option Error) :=
  emit (Executed dfuPath ["--list"] [] EmptyString) ;;
  let lines := Go.Split (output run) Go.NL in
  ret (dfuLines lines, None).

Definition thirtySeconds : Z := 30 * 1000000000.

Definition hasInternalFlash (devices : list string) : bool :=
  existsb (fun dev => Go.Contains dev internalFlashMarker) devices.

(** The loop of [dfuWait]: each round reads the clock and, unless the
    deadline has passed, lists the devices once. *)
Fixpoint dfuWaitLoop (dfuPath : string) (timeout : Z) (clock : list Z)
         (listings : list ListRun)
  : Run (Outcome (option Error * list ListRun)) :=
  match clock with
  | [] => ret StillPolling
  | now :: clock' =>
      if (timeout <? now)%Z then
        ret (Returned
               (Some (Errorf "timed out while waiting for board in DFU mode" []),
                listings))
      else
        match listings with
        | [] => ret StillPolling
        | run :: listings' =>
            r <- dfuList dfuPath run ;;
            let '(devices, err) := r in
            match err with
            | Some e => ret (Returned (Some e, listings'))
            | None =>
                if hasInternalFlash devices
                then ret (Returned (None, listings'))
                else dfuWaitLoop dfuPath timeout clock' listings'
            end
        end
  end.

Definition dfuWait (dfuPath : string) (clock : list Z)
           (listings : list ListRun)
  : Run (Outcome (option Error * list ListRun)) :=
  match clock with
  | [] => ret StillPolling
  | now :: clock' =>
      dfuWaitLoop dfuPath (now + thirtySeconds) clock' listings
  end.

(** The first device line with the internal flash marker, or the empty
    string. *)
Fixpoint flashDevice (devices : list string) : string :=
  match devices with
  | [] => EmptyString
  | dev :: devices' =>
      if Go.Contains dev internalFlashMarker then dev
      else flashDevice devices'
  end.

Definition dfuFlash (f : FC) (dfuPath binaryPath : string)
           (listings : list ListRun) (flashRun : option Error)
  : Run (Outcome (option Error)) :=
  match listings with
  | [] => ret StillPolling
  | run :: _ =>
      r <- dfuList dfuPath run ;;
      let '(devices, err) := r in
      match err with
      | Some e => ret (Returned (Some e))
      | None =>
          let device := flashDevice devices in
          let alt := regexpFind altPattern device in
          let serial := regexpFind serialPattern device in
          let offset := regexpFind offsetPattern device in
          if Go.isEmpty alt || Go.isEmpty serial || Go.isEmpty offset then
            ret (Returned
                   (Some (Errorf "could not determine flash parameters from %q"
                                 [VString device])))
          else
            printf f "Flashing %s via DFU to offset %s...\n"
                   [VString (Go.Base binaryPath); VString offset] ;;
            emit (Executed dfuPath
                    ["-a"; alt; "-S"; serial; "-s"; offset ++ ":leave";
                     "-D"; binaryPath] [] EmptyString) ;;
            ret (Returned flashRun)
      end
  end.

Definition Flash (f : FC) (srcDir explicitTarget : string) (w : World)
  : Run (Outcome (option Error)) :=
  let targetName :=
    if Go.isEmpty explicitTarget then targetName f else explicitTarget in
  if Go.isEmpty targetName then
    ret (Returned (Some (ErrorsNew "empty target name")))
  else
    match lookPath w with
    | inl err => ret (Returned (Some err))
    | inr dfu =>
        printf f "Building binary for %s...\n" [VString targetName] ;;
        emit (Executed "make" ["binary"] ["TARGET=" ++ targetName] srcDir) ;;
        match makeRun w with
        | Some err => ret (Returned (Some err))
        | None =>
            let obj := Go.Join srcDir "obj" in
            match readDir w with
            | inl err => ret (Returned (Some err))
            | inr files =>
                match locateBinary targetName files with
                | None =>
                    ret (Returned
                           (Some (Errorf "could not find binary for target %s"
                                         [VString targetName])))
                | Some binary =>
                    let binaryPath := Go.Join obj (Name binary) in
                    printf f "Rebooting board in DFU mode...\n" [] ;;
                    err <- dfuReboot f (rebootIntoBootloader w) ;;
                    match err with
                    | Some e => ret (Returned (Some e))
                    | None =>
                        r <- dfuWait dfu (clock w) (listings w) ;;
                        match r with
                        | StillPolling => ret StillPolling
                        | Returned (Some e, _) => ret (Returned (Some e))
                        | Returned (None, listings') =>
                            dfuFlash f dfu binaryPath listings' (flashRun w)
                        end
                    end
                end
            end
        end
    end.


(** * Properties *)

(** ** Vocabulary of the properties *)

(** The value of a computation that did not panic. *)
Definition result {A : Type} (m : Run A) : option A :=
  match m with Done a _ => Some a | Panicked _ _ => None end.

Definition panicked {A : Type} (m : Run A) : bool :=
  match m with Done _ _ => false | Panicked _ _ => true end.

(** [m] run after the events [t] have happened. *)
Definition following {A : Type} (t : list Event) (m : Run A) : Run A :=
  Done tt t ;; m.

(** A session as [NewFC] leaves it and [reconnect] restores it: with a
    port and an output stream. *)
Definition ready (f : FC) : bool :=
  match msp f, Stdout (opts f) with
  | Some _, Some _ => true
  | _, _ => false
  end.

(** The session after a board-info payload of at least four bytes. *)
Definition afterBoardInfo (f : FC) (p : list byte) : FC :=
  let f := set_boardID f (string_of_list_byte (firstn 4 p)) in
  match nth_error p 8 with
  | Some n =>
      let targetNameLength := N.to_nat (Byte.to_N n) in
      if (8 + targetNameLength <? List.length p)%nat
      then set_targetName f
             (string_of_list_byte (firstn targetNameLength (skipn 9 p)))
      else f
  | None => f
  end.



Definition infoArgs (f : FC) : list Value :=
  [VString (variant f); VByte (versionMajor f); VByte (versionMinor f);
   VByte (versionPatch f); VString (boardID f);
   VString (if negb (Go.isEmpty (targetName f))
            then ", target " ++ targetName f else EmptyString)].

(** The session a successful open leaves: everything but the options and
    the new port is empty or zero. *)
Definition fresh (o : FCOptions) (port : MSP) : FC :=
  mkFC o (Some port) EmptyString x00 x00 x00 EmptyString EmptyString 0.

Definition infoRequestCodes : list MSPCode :=
  [mspAPIVersion; mspFCVariant; mspFCVersion; mspBoardInfo; mspBuildInfo;
   mspFeature; mspCFSerialConfig].

Definition infoRequests (port : MSP) : list Event :=
  map (fun c => Wrote port c []) infoRequestCodes.

Definition closing (f : FC) : list Event :=
  match msp f with Some port => [ClosedPort port] | None => [] end.

Definition reconnected (f : FC) (w : Writer) : Event :=
  Printed w "Reconnected to %s @ %dbps\n"
          [VString (PortName (opts f)); VInt (BaudRate (opts f))].

(** The entry sequence a serial-port-configuration payload carries: its
    bytes taken three at a time. *)
Fixpoint entries (p : list byte) : option (list MSPSerialConfig) :=
  match p with
  | [] => Some []
  | id :: b0 :: b1 :: rest =>
      option_map (cons (mkSerialConfig id (le16 b0 b1))) (entries rest)
  | _ => None
  end.

(** The test of the reading loop: the entry has both function bits. *)
Definition hasBoth (serialFunctionMSP serialFunctionDebugTrace : Z)
           (cfg : MSPSerialConfig) : bool :=
  let mask := Z.lor serialFunctionMSP serialFunctionDebugTrace in
  (Z.land (FunctionMask cfg) mask =? mask)%Z.

(** What the session keeps across a feature-set frame. *)
Definition sameSession (f f' : FC) : Prop :=
  opts f' = opts f /\ msp f' = msp f /\ variant f' = variant f
  /\ versionMajor f' = versionMajor f /\ versionMinor f' = versionMinor f
  /\ versionPatch f' = versionPatch f.

(** The mask on which the [mspFeature] case decides: the one the frame
    carries, or the stored one when the payload is too short to hold
    one. *)
Definition reportedFeatures (f : FC) (fr : MSPFrame) : Z :=
  match ReadUint32 (Payload fr) with
  | inr (v, _) => v
  | inl _ => features f
  end.

(** The test of [Flash] on a directory entry. *)
Definition isCandidate (targetName : string) (f : FileInfo) : bool :=
  (Go.Ext (Name f) =? ".bin")
  && Go.HasSuffix (substring 0 (length (Name f) - 4) (Name f)) targetName.

(** *** The matcher on the three patterns *)

Fixpoint allChars (p : ascii -> bool) (s : string) : bool :=
  match s with
  | EmptyString => true
  | String c s' => p c && allChars p s'
  end.

(** [s] does not begin with a character of the class [p]. *)
Definition stopsAt (p : ascii -> bool) (s : string) : bool :=
  match s with
  | EmptyString => true
  | String c _ => negb (p c)
  end.

(** The ways a lazy repetition of a class stops inside a run of its
    characters, shortest first. *)
Fixpoint stopsInside (run rest cap : string) : list way :=
  match run with
  | EmptyString => []
  | String c run' =>
      (EmptyString, String c run' ++ rest, cap)
      :: map (after (Go.str c)) (stopsInside run' rest cap)
  end.

Definition unreadOf (w : way) : string := snd (fst w).

(** The text between the first occurrence of [sub] in [s] and the end. *)
Fixpoint afterFirst (s sub : string) : option string :=
  match stripPrefix sub s with
  | Some rest => Some rest
  | None =>
      match s with
      | EmptyString => None
      | String _ s' => afterFirst s' sub
      end
  end.

(** The text before the first [q] in [s]. *)
Fixpoint upTo (q : ascii) (s : string) : option string :=
  match s with
  | EmptyString => None
  | String c s' =>
      if Ascii.eqb c q then Some EmptyString
      else option_map (String c) (upTo q s')
  end.

(** The token between the internal flash marker and the next slash, in
    the words of the specification. *)
Definition tokenAfterMarker (line : string) : option string :=
  match afterFirst line internalFlashMarker with
  | Some rest => upTo "/"%char rest
  | None => None
  end.

(** The longest run of characters of the class [p] that [s] begins with,
    and what follows it. *)
Fixpoint runOf (p : ascii -> bool) (s : string) : string :=
  match s with
  | EmptyString => EmptyString
  | String c s' => if p c then String c (runOf p s') else EmptyString
  end.

Fixpoint afterRun (p : ascii -> bool) (s : string) : string :=
  match s with
  | EmptyString => EmptyString
  | String c s' => if p c then afterRun p s' else s
  end.

(** The text of [s] before its first [q], when [s] has a [q] and that
    text is made of characters of the class [p]. *)
Fixpoint closedBy (p : ascii -> bool) (q : ascii) (s : string)
  : option string :=
  match s with
  | EmptyString => None
  | String c s' =>
      if Ascii.eqb c q then Some EmptyString
      else if p c then option_map (String c) (closedBy p q s')
      else None
  end.

(** What is read at the leftmost place of [line] where [here] reads
    something; empty when there is no such place. *)
Fixpoint leftmost (here : string -> option string) (line : string)
  : string :=
  match here line with
  | Some v => v
  | None =>
      match line with
      | EmptyString => EmptyString
      | String _ line' => leftmost here line'
      end
  end.

(** The three values of a device line, in the words of the
    specification: the digits that follow [alt=], the text between the
    quotes that follow [serial=], and the token of digits and the letter
    x between [Internal Flash  /] and the next slash; each as it is read
    where [s] begins. *)
Definition digitsHere (s : string) : option string :=
  match stripPrefix "alt=" s with
  | Some rest =>
      if Go.isEmpty (runOf isDigit rest) then None
      else Some (runOf isDigit rest)
  | None => None
  end.

Definition quotedHere (s : string) : option string :=
  match stripPrefix ("serial=" ++ Go.str Go.DQ) s with
  | Some rest => closedBy isDot Go.DQ rest
  | None => None
  end.

Definition tokenHere (s : string) : option string :=
  match stripPrefix "Internal Flash  /" s with
  | Some rest => closedBy isDigitOrX "/"%char rest
  | None => None
  end.

Definition quoted (s : string) : string := Go.str Go.DQ ++ s ++ Go.str Go.DQ.

(** The device line given as an example by [dfuFlash]. *)
Definition exampleLine : string :=
  "[0483:df11] ver=2200, devnum=17, cfg=1, intf=0, path=" ++ quoted "20-1"
  ++ ", alt=0, name="
  ++ quoted "@Internal Flash  /0x08000000/04*016Kg,01*064Kg,07*128Kg"
  ++ ", serial=" ++ quoted "3276365D3336".

(** The same line for a flash region at an address with a hexadecimal
    letter. *)
Definition hexLine : string :=
  "[0483:df11] ver=2200, devnum=17, cfg=1, intf=0, path=" ++ quoted "20-1"
  ++ ", alt=0, name="
  ++ quoted "@Internal Flash  /0x0800C000/04*016Kg,01*064Kg,07*128Kg"
  ++ ", serial=" ++ quoted "3276365D3336".

(** A line on which the text of the marker, without its [@], stands a
    first time before the marker itself. *)
Definition shadowedLine : string :=
  "[0483:df11] ver=2200, devnum=17, cfg=1, intf=0, path=" ++ quoted "20-1"
  ++ ", alt=0, name="
  ++ quoted "Internal Flash  /0x1/ @Internal Flash  /0x08000000/04*016Kg"
  ++ ", serial=" ++ quoted "3276365D3336".

Definition flashParametersError (device : string) : Error :=
  Errorf "could not determine flash parameters from %q" [VString device].

(** What [Flash] has printed, run and sent by the time it waits for the
    board to come back in DFU mode. *)
Definition flashPreparation (out : Writer) (port : MSP)
           (srcDir targetName : string) : list Event :=
  [Printed out "Building binary for %s...\n" [VString targetName];
   Executed "make" ["binary"] ["TARGET=" ++ targetName] srcDir;
   Printed out "Rebooting board in DFU mode...\n" [];
   RebootedIntoBootloader port].

(** ** Sample sessions, frames and worlds

    The values the INAV firmware gives the three flag constants.  The
    theorems hold for any values; these serve to run the handler on
    concrete frames. *)
Definition inavFeatureDebugTrace : Z := Z.shiftl 1 31.
Definition inavFunctionMSP : Z := Z.shiftl 1 0.
Definition inavFunctionDebugTrace : Z := Z.shiftl 1 15.

Definition sampleOptions (enable : bool) : FCOptions :=
  mkOptions "/dev/ttyACM0" 115200 (Some OsStdout) enable.

(** A connected session that knows its board: INAV 1.9.0 on AFNA. *)
Definition sampleSession (enable : bool) : FC :=
  mkFC (sampleOptions enable) (Some (Port 0)) "INAV" x01 x09 x00 "AFNA"
       EmptyString 0.


(** Board-info payloads: four bytes, and eight bytes followed by a target
    name of three. *)
Definition boardID4 : list byte := [x41; x46; x4e; x41].
Definition boardHeader : list byte := boardID4 ++ [x00; x00; x00; x00].
Definition targetABC : list byte := [x41; x42; x43].

(** A board-info payload of three bytes, read into a buffer that has room
    for five more. *)
Definition shortBoardInfo : MSPFrame :=
  mkFrameOver mspBoardInfo [x41; x46; x4e] [x5a; x00; x00; x00; x00].

(** A listing with the example device. *)
Definition exampleListing : ListRun :=
  mkListRun None (dfuDevicePrefix ++ exampleLine).

(** The output directory of the specification's example, in the order
    [ioutil.ReadDir] lists it (by name), and a world in which the build
    works and the board shows up in DFU mode at the first poll. *)
Definition exampleDirectory : list FileInfo :=
  [mkFileInfo "TARGET1.hex" 3; mkFileInfo "barTARGET1.bin" 2;
   mkFileInfo "fooTARGET1.bin" 1].

Definition exampleWorld : World :=
  mkWorld (inr "/usr/bin/dfu-util") None (inr exampleDirectory) None
          [0; 1]%Z [exampleListing; exampleListing] None.

(** A run of the device lister that fails without output. *)
Definition failedListing : ListRun :=
  mkListRun (Some (ExternalError "exit status 1")) EmptyString.

(** A world in which the build works and the lister fails at every poll,
    the clock passing the deadline after three polls. *)
Definition listerFailsWorld : World :=
  mkWorld (inr "/usr/bin/dfu-util") None
          (inr [mkFileInfo "inav_1.9.0_TARGET1.bin" 7]) None
          [0; 1; 10000000000; 20000000000; 30000000001]%Z
          [failedListing; failedListing; failedListing; failedListing]
          None.

Definition timedOut : Error :=
  Errorf "timed out while waiting for board in DFU mode" [].

(** ** Computations *)

Lemma bind_Done {A B : Type} (a : A) (t : list Event) (k : A -> Run B) :
  bind (Done a t) k = following t (k a).
Proof. reflexivity. Qed.

Lemma following_nil {A : Type} (m : Run A) : following [] m = m.
Proof. destruct m; reflexivity. Qed.

Lemma bind_ret_l {A B : Type} (a : A) (k : A -> Run B) : bind (ret a) k = k a.
Proof. unfold ret. rewrite bind_Done. apply following_nil. Qed.

Lemma bind_Panicked {A B : Type} (r : string) (t : list Event) (k : A -> Run B) :
  bind (Panicked r t) k = Panicked r t.
Proof. reflexivity. Qed.

Lemma bind_assoc {A B C : Type} (m : Run A) (k : A -> Run B) (h : B -> Run C) :
  bind (bind m k) h = bind m (fun a => bind (k a) h).
Proof.
  destruct m as [a t|r t]; simpl; [|reflexivity].
  destruct (k a) as [b t'|r t']; simpl; [|reflexivity].
  destruct (h b) as [c t''|r t'']; simpl; now rewrite app_assoc.
Qed.

Lemma ready_inv (f : FC) :
  ready f = true ->
  exists port w, msp f = Some port /\ Stdout (opts f) = Some w.
Proof.
  unfold ready. destruct (msp f) as [port|]; [|discriminate].
  destruct (Stdout (opts f)) as [w|]; [|discriminate].
  intros _. now exists port, w.
Qed.

(** ** Slices and payload bytes *)

Lemma slice_short {A : Type} (lo hi : nat) (s spare : list A) :
  List.length s + List.length spare < hi -> Go.slice lo hi s spare = None.
Proof.
  intros H. unfold Go.slice.
  replace (hi <=? List.length s + List.length spare)%nat with false
    by (symmetry; apply Nat.leb_gt; lia).
  now rewrite andb_false_r.
Qed.

Lemma slice_over {A : Type} (lo hi : nat) (s spare : list A) :
  lo <= hi -> hi <= List.length s + List.length spare ->
  Go.slice lo hi s spare
  = Some (firstn (hi - lo) (skipn lo (s ++ spare)%list)).
Proof.
  intros H1 H2. unfold Go.slice.
  replace (lo <=? hi)%nat with true by (symmetry; apply Nat.leb_le; lia).
  replace (hi <=? List.length s + List.length spare)%nat with true
    by (symmetry; apply Nat.leb_le; lia).
  reflexivity.
Qed.

(** Within the length the spare capacity is not seen. *)
Lemma slice_ok {A : Type} (lo hi : nat) (s spare : list A) :
  lo <= hi -> hi <= List.length s ->
  Go.slice lo hi s spare = Some (firstn (hi - lo) (skipn lo s)).
Proof.
  intros H1 H2. rewrite slice_over by lia. f_equal.
  rewrite skipn_app, firstn_app, length_skipn.
  replace (hi - lo - (List.length s - lo)) with 0 by lia.
  simpl. now rewrite app_nil_r.
Qed.

Lemma sliced_short {A : Type} (lo hi : nat) (s spare : list A) :
  List.length s + List.length spare < hi ->
  sliced (Go.slice lo hi s spare) = panic "slice bounds out of range".
Proof. intros H. now rewrite slice_short. Qed.

Lemma sliced_ok {A : Type} (lo hi : nat) (s spare : list A) :
  lo <= hi -> hi <= List.length s ->
  sliced (Go.slice lo hi s spare) = ret (firstn (hi - lo) (skipn lo s)).
Proof. intros H1 H2. now rewrite slice_ok. Qed.

Lemma sliced_over {A : Type} (lo hi : nat) (s spare : list A) :
  lo <= hi -> hi <= List.length s + List.length spare ->
  sliced (Go.slice lo hi s spare)
  = ret (firstn (hi - lo) (skipn lo (s ++ spare)%list)).
Proof. intros H1 H2. now rewrite slice_over. Qed.

Lemma slicedFrom_short {A : Type} (lo : nat) (s : list A) :
  List.length s < lo ->
  sliced (Go.sliceFrom lo s) = panic "slice bounds out of range".
Proof.
  intros H. unfold Go.sliceFrom.
  now replace (lo <=? List.length s)%nat with false
    by (symmetry; apply Nat.leb_gt; lia).
Qed.

Lemma slicedFrom_ok {A : Type} (lo : nat) (s : list A) :
  lo <= List.length s ->
  sliced (Go.sliceFrom lo s) = ret (skipn lo s).
Proof.
  intros H. unfold Go.sliceFrom.
  now replace (lo <=? List.length s)%nat with true
    by (symmetry; apply Nat.leb_le; lia).
Qed.

Lemma Byte_ok (fr : MSPFrame) (i : nat) :
  i < List.length (Payload fr) ->
  exists b, nth_error (Payload fr) i = Some b /\ Byte fr i = ret b.
Proof.
  intros H. unfold Byte.
  destruct (nth_error (Payload fr) i) as [b|] eqn:E.
  - now exists b.
  - apply nth_error_None in E. lia.
Qed.

Lemma printInfo_ready (f : FC) w :
  Stdout (opts f) = Some w ->
  exists t, printInfo f = Done tt t.
Proof.
  intros H. unfold printInfo, printf. rewrite H.
  destruct (_ && _); eexists; reflexivity.
Qed.

Section FrameHandling.

Variable mspFCFeatureDebugTrace : Z.
Variable serialFunctionMSP : Z.
Variable serialFunctionDebugTrace : Z.

Local Notation "'handle'" :=
  (handleFrame mspFCFeatureDebugTrace serialFunctionMSP
               serialFunctionDebugTrace).
Local Notation "'receive'" :=
  (StartUpdating mspFCFeatureDebugTrace serialFunctionMSP
                 serialFunctionDebugTrace).
Local Notation "'bothBits'" :=
  (hasBoth serialFunctionMSP serialFunctionDebugTrace).

(** Claim C10, amended.  The board-info and build-info cases slice the
  raw payload without a check of its length.  A board-info payload whose
  capacity (its bytes and the spare room of its buffer) is below 4 and a
  build-info payload of fewer than 19 bytes panic, in the handler and so
  in the receive loop, which has no recovery.  The target name part of
  board-info is the guarded one: from 4 bytes on board-info does not
  panic, and from 19 bytes on neither does build-info. *)
Theorem short_payload_panics (f : FC) (fr : MSPFrame) :
  (Code fr = mspBoardInfo ->
     List.length (Payload fr) + List.length (Spare fr) < 4 ->
     forall reads opens,
     handle f fr = Panicked "slice bounds out of range" []
     /\ receive f (GotFrame fr :: reads) opens
        = Panicked "slice bounds out of range" [])
  /\ (Code fr = mspBuildInfo -> List.length (Payload fr) < 19 ->
     forall reads opens,
     handle f fr = Panicked "slice bounds out of range" []
     /\ receive f (GotFrame fr :: reads) opens
        = Panicked "slice bounds out of range" [])
  /\ (Code fr = mspBoardInfo -> 4 <= List.length (Payload fr) ->
      ready f = true ->
      panicked (handle f fr) = false)
  /\ (Code fr = mspBuildInfo -> 19 <= List.length (Payload fr) ->
      ready f = true ->
      panicked (handle f fr) = false).
Proof.
assert (Hbuild : Code fr = mspBuildInfo -> List.length (Payload fr) < 19 ->
          handle f fr = Panicked "slice bounds out of range" []).
{ intros H H0. unfold handleFrame. rewrite H.
  set (cap := List.length (Payload fr) + List.length (Spare fr)).
  destruct (Nat.lt_ge_cases cap 11).
  - rewrite sliced_short by (fold cap; lia). reflexivity.
  - rewrite sliced_over by (fold cap; lia). rewrite bind_ret_l.
    destruct (Nat.lt_ge_cases cap 19).
    + rewrite sliced_short by (fold cap; lia). reflexivity.
    + rewrite sliced_over by (fold cap; lia). rewrite bind_ret_l.
      rewrite slicedFrom_short by lia. reflexivity. }
repeat split.
- unfold handleFrame. rewrite H. rewrite sliced_short by lia. reflexivity.
- simpl. unfold handleFrame. rewrite H. rewrite sliced_short by lia. reflexivity.
- now apply Hbuild.
- simpl. now rewrite Hbuild.
- intros Hc Hl Hr. apply ready_inv in Hr. destruct Hr as (port & w & Hp & Hw).
  unfold handleFrame. rewrite Hc. rewrite sliced_ok by lia.
  rewrite bind_ret_l.
  destruct (9 <=? List.length (Payload fr))%nat eqn:E9.
  + apply Nat.leb_le in E9.
    destruct (Byte_ok fr 8) as (b & _ & Hb); [lia|]. rewrite Hb, bind_ret_l.
    destruct (_ <? _)%nat eqn:El.
    * apply Nat.ltb_lt in El. rewrite sliced_ok by lia.
      rewrite !bind_ret_l.
      match goal with |- context [printInfo ?g] =>
        destruct (printInfo_ready g w Hw) as [t Ht]; rewrite Ht end.
      reflexivity.
    * rewrite !bind_ret_l.
      match goal with |- context [printInfo ?g] =>
        destruct (printInfo_ready g w Hw) as [t Ht]; rewrite Ht end.
      reflexivity.
  + rewrite !bind_ret_l.
    match goal with |- context [printInfo ?g] =>
        destruct (printInfo_ready g w Hw) as [t Ht]; rewrite Ht end.
    reflexivity.
- intros Hc Hl Hr. apply ready_inv in Hr. destruct Hr as (port & w & Hp & Hw).
  unfold handleFrame. rewrite Hc. rewrite !sliced_ok by lia.
  rewrite !bind_ret_l.
  rewrite slicedFrom_ok by lia. rewrite bind_ret_l.
  unfold printf. rewrite Hw. reflexivity.
Qed.



Lemma handle_boardInfo (f : FC) (fr : MSPFrame) :
Code fr = mspBoardInfo -> 4 <= List.length (Payload fr) ->
handle f fr
= (printInfo (afterBoardInfo f (Payload fr)) ;;
   ret (afterBoardInfo f (Payload fr))).
Proof.
intros Hc Hl. unfold handleFrame, afterBoardInfo. rewrite Hc.
rewrite sliced_ok by lia. rewrite bind_ret_l.
replace (4 - 0) with 4 by lia. change (skipn 0 (Payload fr)) with (Payload fr).
destruct (9 <=? List.length (Payload fr))%nat eqn:E9.
- apply Nat.leb_le in E9.
  destruct (Byte_ok fr 8) as (b & Hn & Hb); [lia|]. rewrite Hb, Hn, bind_ret_l.
  destruct (_ <? _)%nat eqn:El.
  + apply Nat.ltb_lt in El. rewrite sliced_ok by lia.
    rewrite !bind_ret_l.
    replace (9 + _ - 9) with (N.to_nat (Byte.to_N b)) by lia. reflexivity.
  + rewrite !bind_ret_l. reflexivity.
- apply Nat.leb_gt in E9. rewrite bind_ret_l.
  destruct (nth_error (Payload fr) 8) as [n|] eqn:E; [|reflexivity].
  assert (nth_error (Payload fr) 8 <> None) as Hne by congruence.
  apply nth_error_Some in Hne. lia.
Qed.

Lemma printInfo_result (f : FC) (w : Writer) :
Stdout (opts f) = Some w -> result (printInfo f) = Some tt.
Proof. intros H. destruct (printInfo_ready f w H) as [t Ht]. now rewrite Ht. Qed.

Lemma result_print_ret (f g : FC) (w : Writer) :
Stdout (opts f) = Some w ->
result (printInfo f ;; ret g) = Some g.
Proof.
intros H. destruct (printInfo_ready f w H) as [t Ht]. now rewrite Ht.
Qed.

Lemma opts_afterBoardInfo f p : opts (afterBoardInfo f p) = opts f.
Proof.
unfold afterBoardInfo. destruct (nth_error p 8); [|reflexivity].
now destruct (_ <? _)%nat.
Qed.

Lemma boardInfo_layout (p hdr : list byte) (n : byte) (name : list byte) :
p = (hdr ++ n :: name)%list -> List.length hdr = 8 ->
nth_error p 8 = Some n /\ skipn 9 p = name
/\ List.length p = 9 + List.length name.
Proof.
intros -> Hh. repeat split.
- rewrite nth_error_app2 by lia. now rewrite Hh.
- rewrite skipn_app, Hh. rewrite skipn_all2 by lia. reflexivity.
- rewrite length_app. simpl. lia.
Qed.

(** Claim C4.  On a board-info frame: a payload of exactly 4 bytes leaves
  [targetName] as it was; a payload of 8 bytes, then the length byte [n],
  then exactly [n] bytes sets [targetName] to those bytes; the same
  payload one byte short leaves [targetName] as it was. *)
Theorem board_info_target_name (f : FC) (fr : MSPFrame) :
Code fr = mspBoardInfo -> ready f = true ->
(List.length (Payload fr) = 4 ->
 option_map targetName (result (handle f fr))
 = Some (targetName f))
/\ (forall hdr n name,
      Payload fr = (hdr ++ n :: name)%list -> List.length hdr = 8 ->
      List.length name = N.to_nat (Byte.to_N n) ->
      option_map targetName (result (handle f fr))
      = Some (string_of_list_byte name))
/\ (forall hdr n name,
      Payload fr = (hdr ++ n :: name)%list -> List.length hdr = 8 ->
      S (List.length name) = N.to_nat (Byte.to_N n) ->
      option_map targetName (result (handle f fr))
      = Some (targetName f)).
Proof.
intros Hc Hr. apply ready_inv in Hr. destruct Hr as (port & w & _ & Hw).
assert (Hres : 4 <= List.length (Payload fr) ->
               result (handle f fr)
               = Some (afterBoardInfo f (Payload fr))).
{ intros Hl. rewrite handle_boardInfo by assumption.
  apply result_print_ret with (w := w). now rewrite opts_afterBoardInfo. }
repeat split.
- intros Hl. rewrite Hres by lia. simpl. unfold afterBoardInfo.
  replace (nth_error (Payload fr) 8) with (@None byte); [reflexivity|].
  symmetry. apply nth_error_None. lia.
- intros hdr n name Hp Hh Hn.
  destruct (boardInfo_layout _ _ _ _ Hp Hh) as (Hnth & Hskip & Hlen).
  rewrite Hres by lia. unfold afterBoardInfo. rewrite Hnth, Hskip, Hlen.
  replace (_ <? _)%nat with true by (symmetry; apply Nat.ltb_lt; lia).
  rewrite <- Hn, firstn_all. reflexivity.
- intros hdr n name Hp Hh Hn.
  destruct (boardInfo_layout _ _ _ _ Hp Hh) as (Hnth & Hskip & Hlen).
  rewrite Hres by lia. unfold afterBoardInfo. rewrite Hnth, Hlen.
  replace (_ <? _)%nat with false by (symmetry; apply Nat.ltb_ge; lia).
  reflexivity.
Qed.


Lemma isEmpty_false (s : string) : Go.isEmpty s = false <-> s <> EmptyString.
Proof. destruct s; simpl; split; congruence. Qed.












Lemma reconnectLoop_opens (f : FC) (w : Writer) (k : nat) (port : MSP)
    (opens' : list (option MSP)) :
Stdout (opts f) = Some w ->
reconnectLoop f (repeat None k ++ Some port :: opens')%list
= Done (Some (fresh (opts f) port, opens'))
       (repeat (Slept 1) k ++ reconnected f w :: infoRequests port)%list.
Proof.
intros Hw. induction k as [|k IH].
- simpl. unfold printf. rewrite Hw. reflexivity.
- simpl repeat. simpl app. simpl reconnectLoop. rewrite IH. reflexivity.
Qed.


(** Claim C2.  A reconnect that succeeds after [k] failed opens leaves the
  session with nothing but its options and the new port, sends the seven
  info requests once each, in order, and the receive loop handles the
  reads that follow from that session. *)
Theorem reconnect_resets_and_requests_info (f : FC) (w : Writer) (k : nat) (port : MSP)
      (opens' : list (option MSP)) (reads : list ReadFrameResult) :
Stdout (opts f) = Some w ->
exists tr,
  reconnect f (repeat None k ++ Some port :: opens')%list
  = Done (Some (fresh (opts f) port, opens')) tr
  /\ commands tr = map (fun c => (c, [])) infoRequestCodes
  /\ receive f (GotEOF :: reads)
                   (repeat None k ++ Some port :: opens')%list
     = following
         (Printed w "Board disconnected, trying to reconnect...\n" [] :: tr)
         (receive (fresh (opts f) port) reads opens').
Proof.
intros Hw.
exists (closing f ++ repeat (Slept 1) k
        ++ reconnected f w :: infoRequests port)%list.
assert (Hr : reconnect f (repeat None k ++ Some port :: opens')%list
             = Done (Some (fresh (opts f) port, opens'))
                 (closing f ++ repeat (Slept 1) k
                  ++ reconnected f w :: infoRequests port)%list).
{ unfold reconnect, closing. destruct (msp f) as [old|] eqn:Hm.
  - simpl. rewrite (reconnectLoop_opens (set_msp f None) w) by assumption.
    reflexivity.
  - rewrite bind_ret_l. now apply reconnectLoop_opens. }
split; [exact Hr|]. split.
- assert (Hc : forall l, commands (repeat (Slept 1) k ++ l) = commands l)
    by (intros l; clear Hr; induction k; simpl; auto).
  unfold closing. destruct (msp f); simpl; rewrite Hc; reflexivity.
- simpl StartUpdating. unfold printf at 1. rewrite Hw. rewrite Hr.
  unfold emit. simpl.
  destruct (receive (fresh (opts f) port) reads opens');
    simpl; reflexivity.
Qed.


(** *** Bits *)

Lemma land_lor_absorb (a b : Z) : Z.land (Z.lor a b) b = b.
Proof.
apply Z.bits_inj'. intros n _.
rewrite Z.land_spec, Z.lor_spec.
destruct (Z.testbit a n), (Z.testbit b n); reflexivity.
Qed.

Lemma land_lor_keep (a b : Z) : Z.land (Z.lor a b) a = a.
Proof. rewrite Z.lor_comm. apply land_lor_absorb. Qed.

(** An entry whose mask lacks the non-zero flag [b] does not have both
  [a] and [b]. *)
Lemma lacks_both (m a b : Z) :
b <> 0%Z -> Z.land m b = 0%Z -> Z.land m (Z.lor a b) <> Z.lor a b.
Proof.
intros Hb Hm H. apply Hb.
rewrite <- (land_lor_absorb a b), <- H, <- Z.land_assoc, land_lor_absorb.
exact Hm.
Qed.


Lemma readPorts_entries (fuel : nat) :
forall (p : list byte) (cfgs : list MSPSerialConfig) (has : bool)
       (acc : list MSPSerialConfig),
  entries p = Some cfgs -> List.length p < fuel ->
  readPorts serialFunctionMSP serialFunctionDebugTrace fuel p has acc
  = ret (if existsb bothBits cfgs then true else has, (acc ++ cfgs)%list).
Proof.
induction fuel as [|fuel IH]; intros p cfgs has acc He Hl; [lia|].
destruct p as [|id [|b0 [|b1 rest]]]; simpl in He; try discriminate.
- injection He as <-. simpl. now rewrite app_nil_r.
- destruct (entries rest) as [cfgs'|] eqn:Er; [|discriminate].
  injection He as <-. simpl in Hl.
  simpl readPorts. rewrite (IH rest cfgs') by (auto; lia).
  rewrite <- app_assoc. simpl. unfold hasBoth at 2. cbv zeta. simpl FunctionMask.
  destruct (Z.eqb _ _); destruct (existsb bothBits cfgs'); reflexivity.
Qed.

Lemma enable_none (f : FC) (cfgs : list MSPSerialConfig) :
(forall c, In c cfgs -> Z.land (FunctionMask c) serialFunctionMSP = 0%Z) ->
enableOnFirstMSPPort serialFunctionMSP serialFunctionDebugTrace f cfgs = ret cfgs.
Proof.
induction cfgs as [|c cfgs IH]; intros H; [reflexivity|].
simpl. rewrite (H c) by now left. simpl.
rewrite IH by (intros; apply H; now right). now rewrite bind_ret_l.
Qed.

Lemma enable_first (f : FC) (w : Writer) (pre : list MSPSerialConfig)
    (e : MSPSerialConfig) (post : list MSPSerialConfig) :
Stdout (opts f) = Some w ->
(forall c, In c pre -> Z.land (FunctionMask c) serialFunctionMSP = 0%Z) ->
Z.land (FunctionMask e) serialFunctionMSP <> 0%Z ->
enableOnFirstMSPPort serialFunctionMSP serialFunctionDebugTrace f (pre ++ e :: post)%list
= Done (pre ++ mkSerialConfig (Identifier e)
                 (Z.lor (FunctionMask e) serialFunctionDebugTrace) :: post)%list
       [Printed w "Enabling FUNCTION_DEBUG_TRACE on serial port %v\n"
                [VByte (Identifier e)]].
Proof.
intros Hw Hpre He. induction pre as [|c pre IH].
- simpl. apply Z.eqb_neq in He. rewrite He. simpl.
  unfold printf. rewrite Hw. reflexivity.
- simpl. rewrite (Hpre c) by now left. simpl.
  rewrite IH by (intros; apply Hpre; now right). reflexivity.
Qed.

Lemma existsb_hasBoth_false (cfgs : list MSPSerialConfig) :
(forall c, In c cfgs ->
           Z.land (FunctionMask c) (Z.lor serialFunctionMSP serialFunctionDebugTrace) <> Z.lor serialFunctionMSP serialFunctionDebugTrace) ->
existsb bothBits cfgs = false.
Proof.
intros H. induction cfgs as [|c cfgs IH]; [reflexivity|].
simpl. rewrite IH by (intros; apply H; now right).
unfold hasBoth. cbv zeta. specialize (H c (or_introl eq_refl)).
apply Z.eqb_neq in H. now rewrite H.
Qed.

(** The save of the serial-port case stands after the loop that enables
  the debug trace, not inside its test: when enablement is allowed and no
  entry of the frame has the MSP bit, the loop changes nothing and the
  handler still sends the entries as received in a set-serial-config
  command, followed by a persist command. *)
Lemma save_without_msp_port (f : FC) (fr : MSPFrame) (cfgs : list MSPSerialConfig) (port : MSP) :
Code fr = mspCFSerialConfig ->
entries (Payload fr) = Some cfgs ->
(forall c, In c cfgs -> Z.land (FunctionMask c) serialFunctionMSP = 0%Z) ->
serialFunctionMSP <> 0%Z ->
shouldEnableDebugTrace f = true ->
msp f = Some port ->
handle f fr
= Done f [Wrote port mspSetCFSerialConfig [VSerialConfigs cfgs];
          Wrote port mspEepromWrite []].
Proof.
intros Hc He Hno Hsm Hpol Hp. unfold handleFrame. rewrite Hc, Hpol.
rewrite (readPorts_entries _ _ cfgs) by (auto; lia).
rewrite existsb_hasBoth_false.
2:{ intros c Hin. rewrite Z.lor_comm. apply lacks_both; auto. }
rewrite bind_ret_l. simpl negb. cbv iota.
rewrite enable_none by assumption. rewrite bind_ret_l.
unfold WriteCmd. rewrite Hp. reflexivity.
Qed.

(** Claim C5.  When enablement is allowed, exactly one entry has the MSP bit
  and none has the debug-trace bit, the handler sets the debug-trace bit
  on that entry, leaves every other entry as received, and sends exactly
  one set-serial-config command with the whole updated sequence followed
  by exactly one persist command. *)
Theorem single_msp_port_patched (f : FC) (fr : MSPFrame) (pre : list MSPSerialConfig)
      (e : MSPSerialConfig) (post : list MSPSerialConfig)
      (port : MSP) (w : Writer) :
Code fr = mspCFSerialConfig ->
entries (Payload fr) = Some (pre ++ e :: post)%list ->
Z.land (FunctionMask e) serialFunctionMSP <> 0%Z ->
(forall c, In c (pre ++ post)%list -> Z.land (FunctionMask c) serialFunctionMSP = 0%Z) ->
(forall c, In c (pre ++ e :: post)%list -> Z.land (FunctionMask c) serialFunctionDebugTrace = 0%Z) ->
serialFunctionDebugTrace <> 0%Z ->
shouldEnableDebugTrace f = true ->
msp f = Some port -> Stdout (opts f) = Some w ->
handle f fr
= Done f [Printed w "Enabling FUNCTION_DEBUG_TRACE on serial port %v\n"
                  [VByte (Identifier e)];
          Wrote port mspSetCFSerialConfig
                [VSerialConfigs
                   (pre ++ mkSerialConfig (Identifier e)
                             (Z.lor (FunctionMask e) serialFunctionDebugTrace) :: post)%list];
          Wrote port mspEepromWrite []].
Proof.
intros Hc He Hmsp Hothers Hnodt Hsdt Hpol Hp Hw.
unfold handleFrame. rewrite Hc, Hpol.
rewrite (readPorts_entries _ _ (pre ++ e :: post)%list) by (auto; lia).
rewrite existsb_hasBoth_false.
2:{ intros c Hin. apply lacks_both; auto. }
rewrite bind_ret_l. simpl negb. cbv iota. rewrite app_nil_l.
rewrite (enable_first f w) by
    (auto; intros c Hin; apply Hothers, in_or_app; now left).
unfold WriteCmd. rewrite Hp. reflexivity.
Qed.



Lemma sameSession_policy (f f' : FC) :
sameSession f f' -> shouldEnableDebugTrace f' = shouldEnableDebugTrace f.
Proof.
intros (Ho & _ & Hv & H1 & H2 & H3).
unfold shouldEnableDebugTrace, versionGte. now rewrite Ho, Hv, H1, H2, H3.
Qed.

Lemma sameSession_ready (f f' : FC) :
sameSession f f' -> ready f' = ready f.
Proof. intros (Ho & Hm & _). unfold ready. now rewrite Ho, Hm. Qed.

Lemma sameSession_features (f : FC) (m : Z) : sameSession f (set_features f m).
Proof. repeat split. Qed.

Lemma handle_feature (f : FC) (fr : MSPFrame) :
Code fr = mspFeature -> ready f = true ->
exists f' tr,
  handle f fr = Done f' tr
  /\ sameSession f f'
  /\ ((Z.land (reportedFeatures f fr) mspFCFeatureDebugTrace <> 0%Z
       /\ features f' = reportedFeatures f fr /\ tr = [])
      \/ (Z.land (reportedFeatures f fr) mspFCFeatureDebugTrace = 0%Z
          /\ shouldEnableDebugTrace f = false
          /\ features f' = reportedFeatures f fr /\ tr = [])
      \/ (Z.land (reportedFeatures f fr) mspFCFeatureDebugTrace = 0%Z
          /\ shouldEnableDebugTrace f = true
          /\ features f' = Z.lor (reportedFeatures f fr) mspFCFeatureDebugTrace
          /\ commands tr
             = [(mspSetFeature, [VUint32 (features f')]);
                (mspEepromWrite, [])])).
Proof.
intros Hc Hr. apply ready_inv in Hr. destruct Hr as (port & w & Hp & Hw).
unfold handleFrame. rewrite Hc. cbv beta iota zeta.
set (f1 := match ReadUint32 (Payload fr) with
           | inr (v, _) => set_features f v
           | inl _ => f
           end).
assert (H1 : sameSession f f1).
{ unfold f1. destruct (ReadUint32 (Payload fr)) as [|[v rest]];
    repeat split. }
assert (Hf1 : features f1 = reportedFeatures f fr).
{ unfold f1, reportedFeatures.
  destruct (ReadUint32 (Payload fr)) as [|[v rest]]; reflexivity. }
clearbody f1. rewrite (sameSession_policy f f1 H1).
destruct (Z.land (features f1) mspFCFeatureDebugTrace =? 0)%Z eqn:Eb; rewrite Hf1 in Eb.
- apply Z.eqb_eq in Eb. destruct (shouldEnableDebugTrace f) eqn:Epol; simpl.
  + destruct H1 as (Ho & Hm & Hrest).
    unfold printf, WriteCmd. simpl. rewrite Ho, Hm, Hw, Hp. simpl.
    eexists _, _. split; [reflexivity|]. split.
    * repeat split; simpl; tauto.
    * right; right. simpl. rewrite Hf1. auto.
  + exists f1, []. split; [reflexivity|]. split; [assumption|].
    right; left. auto.
- apply Z.eqb_neq in Eb. simpl.
  exists f1, []. split; [reflexivity|]. split; [assumption|]. left. auto.
Qed.

(** A run of feature-set frames, with enablement allowed, ends with the
  debug-trace bit stored. *)
Lemma feature_frames_enabled (frames : list MSPFrame) :
forall (f : FC) (opens : list (option MSP)),
  Forall (fun fr => Code fr = mspFeature) frames ->
  ready f = true -> shouldEnableDebugTrace f = true -> mspFCFeatureDebugTrace <> 0%Z ->
  Z.land (features f) mspFCFeatureDebugTrace <> 0%Z \/ frames <> [] ->
  exists f' tr,
    receive f (map GotFrame frames) opens
    = Done (Receiving f' opens) tr
    /\ Z.land (features f') mspFCFeatureDebugTrace <> 0%Z.
Proof.
induction frames as [|fr frames IH]; intros f opens Hall Hr Hpol Hdt Hset.
- exists f, []. split; [reflexivity|]. destruct Hset; congruence.
- inversion Hall as [|? ? Hc Hall']; subst.
  destruct (handle_feature f fr Hc Hr) as (f1 & t1 & Hh & Hsame & Hcases).
  assert (Hbit : Z.land (features f1) mspFCFeatureDebugTrace <> 0%Z).
  { destruct Hcases as [(Hb & Hf & _)|[(_ & Hno & _)|(_ & _ & Hf & _)]].
    - now rewrite Hf.
    - congruence.
    - rewrite Hf, land_lor_absorb. assumption. }
  destruct (IH f1 opens Hall') as (f' & t' & Hrun & Hb'); auto.
  + now rewrite (sameSession_ready f f1).
  + now rewrite (sameSession_policy f f1).
  + exists f', (t1 ++ t')%list. split; [|assumption].
    simpl. rewrite Hh. simpl. now rewrite Hrun.
Qed.

(** Claim C3, amended.  A feature-set frame replaces the stored mask by the
  mask it carries, to which the handler may only add the debug-trace
  bit: no bit of the carried mask is cleared, and a carried mask that
  has the bit already is stored as it is, with no outgoing command.
  While enablement is allowed, the stored mask has the debug-trace bit
  after every frame of every run of feature-set frames. *)
Theorem feature_frame_keeps_reported_bits (f : FC) (fr : MSPFrame) (m : Z) (rest : list byte) :
Code fr = mspFeature ->
ReadUint32 (Payload fr) = inr (m, rest) ->
ready f = true ->
(exists f' tr,
   handle f fr = Done f' tr
   /\ Z.land (features f') m = m
   /\ (features f' = m \/ features f' = Z.lor m mspFCFeatureDebugTrace)
   /\ (Z.land m mspFCFeatureDebugTrace <> 0%Z -> features f' = m /\ tr = []))
/\ (shouldEnableDebugTrace f = true -> mspFCFeatureDebugTrace <> 0%Z ->
    forall (frames : list MSPFrame) (opens : list (option MSP)),
      Forall (fun fr' => Code fr' = mspFeature) frames ->
      exists f' tr,
        receive f (map GotFrame (fr :: frames)) opens
        = Done (Receiving f' opens) tr
        /\ Z.land (features f') mspFCFeatureDebugTrace <> 0%Z).
Proof.
intros Hc Hread Hr. split.
- destruct (handle_feature f fr Hc Hr) as (f' & tr & Hh & _ & Hcases).
  assert (Hm : reportedFeatures f fr = m)
    by (unfold reportedFeatures; now rewrite Hread).
  rewrite Hm in Hcases. exists f', tr. split; [exact Hh|].
  destruct Hcases as [(Hb & Hf & Ht)|[(Hb & _ & Hf & Ht)|(Hb & _ & Hf & _)]].
  + rewrite Hf. split; [apply Z.land_diag|]. split; auto.
  + rewrite Hf. split; [apply Z.land_diag|]. split; auto.
  + rewrite Hf. split; [apply land_lor_keep|]. split; [auto|congruence].
- intros Hpol Hdt frames opens Hall.
  apply feature_frames_enabled; auto. right. discriminate.
Qed.

End FrameHandling.

(** *** Strings *)

Lemma append_nil_r (s : string) : s ++ EmptyString = s.
Proof. induction s; simpl; congruence. Qed.

Lemma append_assoc (a b c : string) : (a ++ b) ++ c = a ++ b ++ c.
Proof. induction a; simpl; congruence. Qed.

Lemma length_append (a b : string) : length (a ++ b) = length a + length b.
Proof. induction a; simpl; congruence. Qed.

Lemma substring_all (s : string) : substring 0 (length s) s = s.
Proof. induction s; simpl; congruence. Qed.

Lemma substring_head (a b : string) : substring 0 (length a) (a ++ b) = a.
Proof.
  induction a as [|c a IH]; simpl.
  - now destruct b.
  - now rewrite IH.
Qed.

Lemma substring_tail (a b : string) :
  substring (length a) (length b) (a ++ b) = b.
Proof. induction a; simpl; auto using substring_all. Qed.

Lemma substring_split (s : string) :
  forall n m, n + m = length s -> s = substring 0 n s ++ substring n m s.
Proof.
  induction s as [|c s IH]; intros n m H; simpl in H.
  - assert (n = 0) by lia. assert (m = 0) by lia. subst. reflexivity.
  - destruct n as [|n]; simpl.
    + simpl in H. subst m. simpl. now rewrite substring_all.
    + f_equal. apply IH. lia.
Qed.

Lemma HasSuffix_iff (s suffix : string) :
  Go.HasSuffix s suffix = true <-> exists pre, s = pre ++ suffix.
Proof.
  unfold Go.HasSuffix. split.
  - intros H. apply andb_true_iff in H. destruct H as [Hl He].
    apply Nat.leb_le in Hl. apply String.eqb_eq in He.
    exists (substring 0 (length s - length suffix) s).
    pose proof (substring_split s (length s - length suffix) (length suffix))
      as Hs.
    rewrite He in Hs. apply Hs. lia.
  - intros [pre ->]. rewrite length_append.
    replace (length pre + length suffix - length suffix) with (length pre) by lia.
    rewrite substring_tail, String.eqb_refl.
    replace (_ <=? _)%nat with true by (symmetry; apply Nat.leb_le; lia).
    reflexivity.
Qed.

Lemma Ext_suffix (path : string) :
  exists stem, path = stem ++ Go.Ext path.
Proof.
  induction path as [|c rest [stem IH]].
  - now exists EmptyString.
  - simpl. destruct (Go.Ext rest) as [|d e] eqn:E.
    + destruct (Ascii.eqb c "."); [|exists (String c rest); now rewrite append_nil_r].
      destruct (Go.Contains rest "/").
      * exists (String c rest). now rewrite append_nil_r.
      * now exists EmptyString.
    + exists (String c stem). simpl. now rewrite <- IH.
Qed.

Lemma Ext_bin (stem : string) : Go.Ext (stem ++ ".bin") = ".bin".
Proof.
  induction stem as [|c stem IH]; [reflexivity|].
  simpl. now rewrite IH.
Qed.

Lemma isCandidate_iff (targetName : string) (f : FileInfo) :
  isCandidate targetName f = true
  <-> exists stem, Name f = stem ++ targetName ++ ".bin".
Proof.
  unfold isCandidate. split.
  - intros H. apply andb_true_iff in H. destruct H as [He Hs].
    apply String.eqb_eq in He. destruct (Ext_suffix (Name f)) as [stem Hn].
    rewrite He in Hn. rewrite Hn in Hs. rewrite length_append in Hs.
    replace (length stem + length ".bin" - 4) with (length stem) in Hs
      by (simpl; lia).
    rewrite substring_head in Hs. apply HasSuffix_iff in Hs.
    destruct Hs as [pre ->]. exists pre. now rewrite Hn, append_assoc.
  - intros [stem Hn]. rewrite Hn. rewrite <- append_assoc, Ext_bin.
    rewrite length_append.
    replace (length (stem ++ targetName) + length ".bin" - 4)
      with (length (stem ++ targetName)) by (simpl; lia).
    rewrite substring_head. simpl. apply HasSuffix_iff. now exists stem.
Qed.

Lemma retain_eq (targetName : string) (binary : option FileInfo) (f : FileInfo) :
  retain targetName binary f
  = if isCandidate targetName f
    then match binary with
         | None => Some f
         | Some b => if (ModTime b <? ModTime f)%Z then Some f else binary
         end
    else binary.
Proof.
  unfold retain, isCandidate.
  destruct (Go.Ext (Name f) =? ".bin"); [|reflexivity].
  now destruct (Go.HasSuffix _ _).
Qed.

(** What the loop of [Flash] retains, whatever it starts from. *)
Lemma retained (targetName : string) (files : list FileInfo) :
  forall acc : option FileInfo,
    match fold_left (retain targetName) files acc with
    | None =>
        acc = None
        /\ forall c, In c files -> isCandidate targetName c = false
    | Some b =>
        (acc = Some b \/ (In b files /\ isCandidate targetName b = true))
        /\ (forall a, acc = Some a -> (ModTime a <= ModTime b)%Z)
        /\ (forall c, In c files -> isCandidate targetName c = true ->
                      (ModTime c <= ModTime b)%Z)
    end.
Proof.
  induction files as [|f files IH]; intros acc; simpl.
  - destruct acc as [a|].
    + repeat split; auto.
      * intros a' H. injection H as <-. lia.
      * contradiction.
    + split; auto. contradiction.
  - specialize (IH (retain targetName acc f)). rewrite retain_eq in *.
    destruct (fold_left (retain targetName) files _) as [b|].
    + destruct IH as (Hb & Hacc & Hfiles).
      destruct (isCandidate targetName f) eqn:Ec.
      * destruct acc as [a|].
        -- destruct (ModTime a <? ModTime f)%Z eqn:El.
           ++ apply Z.ltb_lt in El. repeat split.
              ** destruct Hb as [Hb|[Hb Hc]]; [injection Hb as <-|]; auto.
              ** intros a' H. injection H as <-.
                 specialize (Hacc f eq_refl). lia.
              ** intros c [<-|Hin] Hc; auto.
           ++ apply Z.ltb_ge in El. repeat split.
              ** destruct Hb as [Hb|[Hb Hc]]; auto.
              ** assumption.
              ** intros c [<-|Hin] Hc; auto.
                 specialize (Hacc a eq_refl). lia.
        -- repeat split.
           ++ destruct Hb as [Hb|[Hb Hc]]; [injection Hb as <-|]; auto.
           ++ discriminate.
           ++ intros c [<-|Hin] Hc; auto.
      * repeat split.
        -- destruct Hb as [Hb|[Hb Hc]]; auto.
        -- assumption.
        -- intros c [<-|Hin] Hc; [congruence|auto].
    + destruct IH as (Hacc & Hfiles).
      destruct (isCandidate targetName f) eqn:Ec.
      * destruct acc as [a|]; [|discriminate].
        destruct (ModTime a <? ModTime f)%Z; discriminate.
      * split; [assumption|]. intros c [<-|Hin]; auto.
Qed.

Lemma following_following {A : Type} (t t' : list Event) (m : Run A) :
  following t (following t' m) = following (t ++ t') m.
Proof. destruct m; unfold following; simpl; now rewrite app_assoc. Qed.

(** Once a binary is retained, [Flash] reboots the board, waits for it
    and hands the path of that binary in the output directory to
    [dfuFlash]. *)
Lemma Flash_selected (f : FC) (srcDir targetName : string) (w : World)
      (out : Writer) (dfu : string) (files : list FileInfo) (b : FileInfo)
      (port : MSP) (tw : list Event) (listings' : list ListRun) :
  targetName <> EmptyString -> Stdout (opts f) = Some out ->
  lookPath w = inr dfu -> makeRun w = None -> readDir w = inr files ->
  locateBinary targetName files = Some b ->
  msp f = Some port -> rebootIntoBootloader w = None ->
  dfuWait dfu (clock w) (listings w) = Done (Returned (None, listings')) tw ->
  Flash f srcDir targetName w
  = following (flashPreparation out port srcDir targetName ++ tw)
              (dfuFlash f dfu (Go.Join (Go.Join srcDir "obj") (Name b))
                        listings' (flashRun w)).
Proof.
  intros Ht Hw Hl Hm Hr Hb Hp Hreb Hwait.
  unfold Flash. apply isEmpty_false in Ht. rewrite !Ht, Hl, Hm, Hr, Hb.
  unfold printf, dfuReboot. rewrite Hw, Hp, Hreb, Hwait.
  unfold emit. rewrite !bind_Done.
  change (following [RebootedIntoBootloader port] (ret (@None Error)))
    with (Done (@None Error) [RebootedIntoBootloader port]).
  rewrite bind_Done, !following_following. reflexivity.
Qed.

(** A retained entry stays while no candidate after it is newer. *)
Lemma retained_stays (targetName : string) (b : FileInfo)
      (rest : list FileInfo) :
  (forall c, In c rest -> isCandidate targetName c = true ->
             (ModTime c <= ModTime b)%Z) ->
  fold_left (retain targetName) rest (Some b) = Some b.
Proof.
  induction rest as [|x rest IH]; intros H; [reflexivity|].
  simpl. rewrite retain_eq.
  destruct (isCandidate targetName x) eqn:Ex.
  - specialize (H x (or_introl eq_refl) Ex) as Hx.
    replace (ModTime b <? ModTime x)%Z with false
      by (symmetry; apply Z.ltb_ge; lia).
    apply IH. intros c Hin. apply H. now right.
  - apply IH. intros c Hin. apply H. now right.
Qed.

(** The loop retains the first of the newest candidates. *)
Lemma locate_first_newest (targetName : string) (before : list FileInfo)
      (b : FileInfo) (rest : list FileInfo) :
  isCandidate targetName b = true ->
  (forall c, In c before -> isCandidate targetName c = true ->
             (ModTime c < ModTime b)%Z) ->
  (forall c, In c rest -> isCandidate targetName c = true ->
             (ModTime c <= ModTime b)%Z) ->
  locateBinary targetName (before ++ b :: rest) = Some b.
Proof.
  intros Hb Hbefore Hrest. unfold locateBinary.
  rewrite fold_left_app. simpl. rewrite retain_eq, Hb.
  pose proof (retained targetName before None) as Hr.
  destruct (fold_left (retain targetName) before None) as [a|].
  - destruct Hr as ([Ha|[Hin Hc]] & _); [discriminate|].
    specialize (Hbefore a Hin Hc).
    replace (ModTime a <? ModTime b)%Z with true
      by (symmetry; apply Z.ltb_lt; lia).
    now apply retained_stays.
  - now apply retained_stays.
Qed.

(** Claim C8.  After a successful build, [Flash] either finds no entry of
    the output directory whose name ends with the target name followed by
    [.bin], and then fails with the error that names the target; or it
    goes on with such an entry than which no other is newer: once the
    board has rebooted and shown up, what [Flash] does is what [dfuFlash]
    does on the path of that entry in the output directory.  On the
    example of the specification the binary flashed is
    [obj/barTARGET1.bin]. *)
Theorem newest_matching_binary :
  (forall (f : FC) (srcDir targetName : string) (w : World) (out : Writer)
          (dfu : string) (files : list FileInfo),
     targetName <> EmptyString -> Stdout (opts f) = Some out ->
     lookPath w = inr dfu -> makeRun w = None -> readDir w = inr files ->
     ((forall c, In c files ->
         ~ exists stem, Name c = stem ++ targetName ++ ".bin")
      /\ Flash f srcDir targetName w
         = Done (Returned
                   (Some (Errorf "could not find binary for target %s"
                                 [VString targetName])))
                [Printed out "Building binary for %s...\n"
                         [VString targetName];
                 Executed "make" ["binary"] ["TARGET=" ++ targetName]
                          srcDir])
     \/ (exists b,
           In b files
           /\ (exists stem, Name b = stem ++ targetName ++ ".bin")
           /\ (forall c, In c files ->
                 (exists stem, Name c = stem ++ targetName ++ ".bin") ->
                 (ModTime c <= ModTime b)%Z)
           /\ forall (port : MSP) (tw : list Event)
                     (listings' : list ListRun),
                msp f = Some port -> rebootIntoBootloader w = None ->
                dfuWait dfu (clock w) (listings w)
                = Done (Returned (None, listings')) tw ->
                Flash f srcDir targetName w
                = following
                    (flashPreparation out port srcDir targetName ++ tw)
                    (dfuFlash f dfu
                              (Go.Join (Go.Join srcDir "obj") (Name b))
                              listings' (flashRun w))))
  /\ Flash (sampleSession false) "." "TARGET1" exampleWorld
     = Done (Returned None)
            (flashPreparation OsStdout (Port 0) "." "TARGET1"
             ++ [Executed "/usr/bin/dfu-util" ["--list"] [] EmptyString;
                 Executed "/usr/bin/dfu-util" ["--list"] [] EmptyString;
                 Printed OsStdout "Flashing %s via DFU to offset %s...\n"
                         [VString "barTARGET1.bin"; VString "0x08000000"];
                 Executed "/usr/bin/dfu-util"
                          ["-a"; "0"; "-S"; "3276365D3336";
                           "-s"; "0x08000000:leave";
                           "-D"; "obj/barTARGET1.bin"] [] EmptyString]).
Proof.
  split; [|vm_compute; reflexivity].
  intros f srcDir targetName w out dfu files Ht Hw Hl Hm Hr.
  pose proof (retained targetName files None) as H.
  destruct (locateBinary targetName files) as [b|] eqn:Eb;
    unfold locateBinary in Eb; rewrite Eb in H.
  - right. exists b. destruct H as ([H|[Hin Hc]] & _ & Hmax); [discriminate|].
    split; [assumption|]. split; [now apply isCandidate_iff|].
    split.
    + intros c Hc' Hs. apply Hmax; [assumption|now apply isCandidate_iff].
    + intros port tw listings' Hp Hreb Hwait.
      now apply Flash_selected with (files := files).
  - left. destruct H as [_ Hnone]. split.
    + intros c Hin Hc. apply isCandidate_iff in Hc.
      rewrite (Hnone c Hin) in Hc. discriminate.
    + unfold Flash. apply isEmpty_false in Ht. rewrite !Ht, Hl, Hm, Hr.
      unfold locateBinary. rewrite Eb. unfold printf. rewrite Hw.
      reflexivity.
Qed.

(** ** The three patterns of [dfuFlash] *)

Lemma stripPrefix_app (lit s : string) : stripPrefix lit (lit ++ s) = Some s.
Proof.
  induction lit as [|a lit IH]; simpl.
  - now destruct s.
  - now rewrite Ascii.eqb_refl.
Qed.

Lemma stripPrefix_prefix (lit s : string) :
  prefix lit s = false -> stripPrefix lit s = None.
Proof.
  revert s. induction lit as [|a lit IH]; intros s H.
  - destruct s; discriminate.
  - destruct s as [|b s]; [reflexivity|]. simpl in *.
    destruct (ascii_dec a b) as [->|Hne].
    + rewrite Ascii.eqb_refl. auto.
    + apply Ascii.eqb_neq in Hne. now rewrite Hne.
Qed.

Lemma find_unfold (r : regex) (s : string) :
  FindStringSubmatch r s
  = match ways r s EmptyString with
    | (m, _, cap) :: _ => [m; cap]
    | [] =>
        match s with
        | EmptyString => []
        | String _ s' => FindStringSubmatch r s'
        end
    end.
Proof. destruct s; reflexivity. Qed.

Lemma iter_S (greedy : bool) (step : string -> string -> list way)
      (fuel : nat) (s cap : string) :
  iter greedy step (S fuel) s cap
  = let more :=
      flat_map (fun w : way =>
                  let '(m1, unread, cap1) := w in
                  if Go.isEmpty m1 then []
                  else map (after m1) (iter greedy step fuel unread cap1))
               (step s cap) in
    let stop := [(EmptyString, s, cap)] in
    if greedy then (more ++ stop)%list else (stop ++ more)%list.
Proof. reflexivity. Qed.

(** A greedy repetition of a class takes the whole run of its characters
    first. *)
Lemma iter_greedy_run (p : ascii -> bool) (run : string) :
  forall (fuel : nat) (rest cap : string),
    allChars p run = true -> stopsAt p rest = true -> length run < fuel ->
    exists tl,
      iter true (ways (Class p)) fuel (run ++ rest) cap
      = (run, rest, cap) :: tl.
Proof.
  induction run as [|c run IH]; intros fuel rest cap Ha Hs Hl.
  - destruct fuel as [|fuel]; [simpl in Hl; lia|]. rewrite iter_S.
    change (EmptyString ++ rest) with rest.
    destruct rest as [|d rest]; cbv zeta.
    + now exists [].
    + simpl in Hs. apply negb_true_iff in Hs.
      change (ways (Class p) (String d rest) cap)
        with (if p d then [(Go.str d, rest, cap)] else []).
      rewrite Hs. now exists [].
  - destruct fuel as [|fuel]; [simpl in Hl; lia|].
    simpl in Ha. apply andb_true_iff in Ha. destruct Ha as [Hc Ha].
    simpl in Hl. destruct (IH fuel rest cap Ha Hs) as [tl Htl]; [lia|].
    rewrite iter_S. cbv zeta.
    change (ways (Class p) (String c run ++ rest) cap)
      with (if p c then [(Go.str c, run ++ rest, cap)] else []).
    rewrite Hc. cbn [flat_map Go.isEmpty Go.str]. rewrite Htl.
    eexists. reflexivity.
Qed.

Lemma iter_lazy_run (p : ascii -> bool) (run : string) :
  forall (fuel : nat) (rest cap : string),
    allChars p run = true -> length run < fuel ->
    exists tl,
      iter false (ways (Class p)) fuel (run ++ rest) cap
      = (stopsInside run rest cap ++ (run, rest, cap) :: tl)%list.
Proof.
  induction run as [|c run IH]; intros fuel rest cap Ha Hl.
  - destruct fuel as [|fuel]; [simpl in Hl; lia|]. rewrite iter_S.
    eexists. reflexivity.
  - destruct fuel as [|fuel]; [simpl in Hl; lia|].
    simpl in Ha. apply andb_true_iff in Ha. destruct Ha as [Hc Ha].
    simpl in Hl. destruct (IH fuel rest cap Ha) as [tl Htl]; [lia|].
    rewrite iter_S. cbv zeta.
    change (ways (Class p) (String c run ++ rest) cap)
      with (if p c then [(Go.str c, run ++ rest, cap)] else []).
    rewrite Hc. cbn [flat_map Go.isEmpty Go.str]. rewrite Htl.
    rewrite app_nil_r, map_app.
    eexists. reflexivity.
Qed.

(** Inside a run without the character [q], every stop is before a
    character other than [q]. *)
Lemma stopsInside_unread (q : ascii) (run : string) :
  forall (rest cap : string),
    allChars (fun c => negb (Ascii.eqb c q)) run = true ->
    Forall (fun w => stripPrefix (Go.str q) (unreadOf w) = None)
           (stopsInside run rest cap).
Proof.
  induction run as [|c run IH]; intros rest cap Ha; [constructor|].
  simpl in Ha. apply andb_true_iff in Ha. destruct Ha as [Hc Ha].
  apply negb_true_iff in Hc. rewrite Ascii.eqb_sym in Hc.
  simpl. constructor.
  - unfold unreadOf. simpl. now rewrite Hc.
  - apply Forall_map. specialize (IH rest cap Ha).
    eapply Forall_impl; [|exact IH].
    intros [[m u] k]. auto.
Qed.

Lemma dead_stops (q : ascii) (l : list way) :
  Forall (fun w => stripPrefix (Go.str q) (unreadOf w) = None) l ->
  flat_map (fun w : way =>
              let '(m1, unread, cap1) := w in
              map (after m1) (ways (Lit (Go.str q)) unread cap1))
           (map (fun w : way => let '(m, unread, _) := w in (m, unread, m)) l)
  = [].
Proof.
  induction 1 as [|[[m u] k] l Hw _ IH]; [reflexivity|].
  unfold unreadOf in Hw. simpl in Hw. simpl. simpl in IH. rewrite IH.
  unfold Go.str in Hw. simpl in Hw. destruct u as [|b u]; [reflexivity|].
  destruct (Ascii.eqb q b); [|reflexivity]. discriminate.
Qed.

(** A lazy repetition of a class, captured and followed by the character
    [q]: on a run of the class without [q] and then [q], the preferred way
    captures the run. *)
Lemma lazy_capture (p : ascii -> bool) (q : ascii) (run rest cap : string) :
  allChars p run = true ->
  allChars (fun c => negb (Ascii.eqb c q)) run = true ->
  exists tl,
    ways (Cat (Group (Star false (Class p))) (Lit (Go.str q)))
         (run ++ String q rest) cap
    = (run ++ Go.str q, rest, run) :: tl.
Proof.
  intros Hp Hq.
  destruct (iter_lazy_run p run (S (length (run ++ String q rest)))
                          (String q rest) cap Hp) as [tl Htl].
  { rewrite length_append. simpl. lia. }
  change (ways (Cat (Group (Star false (Class p))) (Lit (Go.str q)))
               (run ++ String q rest) cap)
    with (flat_map (fun w : way =>
                      let '(m1, unread, cap1) := w in
                      map (after m1) (ways (Lit (Go.str q)) unread cap1))
            (map (fun w : way => let '(m, unread, _) := w in (m, unread, m))
               (iter false (ways (Class p))
                     (S (length (run ++ String q rest)))
                     (run ++ String q rest) cap))).
  rewrite Htl. rewrite map_app, flat_map_app.
  rewrite (dead_stops q) by now apply stopsInside_unread.
  simpl. rewrite Ascii.eqb_refl. simpl.
  eexists. reflexivity.
Qed.

(** A greedy repetition of a class, at least once and captured: the
    preferred way captures the whole run. *)
Lemma greedy_capture (p : ascii -> bool) (c : ascii) (run rest cap : string) :
  p c = true -> allChars p run = true -> stopsAt p rest = true ->
  exists tl,
    ways (Group (Plus true (Class p))) (String c run ++ rest) cap
    = (String c run, rest, String c run) :: tl.
Proof.
  intros Hc Hp Hs.
  destruct (iter_greedy_run p run (S (length (run ++ rest))) rest cap Hp Hs)
    as [tl Htl].
  { rewrite length_append. lia. }
  change (ways (Group (Plus true (Class p))) (String c run ++ rest) cap)
    with (map (fun w : way => let '(m, unread, _) := w in (m, unread, m))
            (flat_map
               (fun w : way =>
                  let '(m1, unread, cap1) := w in
                  map (after m1)
                      (iter true (ways (Class p)) (S (length unread))
                            unread cap1))
               (if p c then [(Go.str c, run ++ rest, cap)] else []))).
  rewrite Hc. cbn [flat_map]. rewrite Htl. simpl.
  eexists. reflexivity.
Qed.

(** *** The patterns against a direct reading of the line *)

Lemma ways_lit_cat (lit : string) (r : regex) (s cap : string) :
  ways (Cat (Lit lit) r) s cap
  = match stripPrefix lit s with
    | Some unread => map (after lit) (ways r unread cap)
    | None => []
    end.
Proof.
  change (ways (Cat (Lit lit) r) s cap)
    with (flat_map (fun w : way =>
                      let '(m1, unread, cap1) := w in
                      map (after m1) (ways r unread cap1))
                   (match stripPrefix lit s with
                    | Some unread => [(lit, unread, cap)]
                    | None => []
                    end)).
  destruct (stripPrefix lit s); [|reflexivity].
  simpl. apply app_nil_r.
Qed.

Lemma leftmost_unfold (here : string -> option string) (line : string) :
  leftmost here line
  = match here line with
    | Some v => v
    | None =>
        match line with
        | EmptyString => EmptyString
        | String _ line' => leftmost here line'
        end
    end.
Proof. destruct line; reflexivity. Qed.

(** A pattern that matches where, and captures what, [here] reads is
    found where [here] first reads something. *)
Lemma find_leftmost (r : regex) (here : string -> option string) :
  (forall s,
     match here s with
     | Some v => exists m rest tl, ways r s EmptyString = (m, rest, v) :: tl
     | None => ways r s EmptyString = []
     end) ->
  forall line, regexpFind r line = leftmost here line.
Proof.
  intros H line. unfold regexpFind.
  induction line as [|c line IH]; rewrite find_unfold, leftmost_unfold.
  - specialize (H EmptyString). destruct (here EmptyString) as [v|].
    + destruct H as (m & rest & tl & ->). reflexivity.
    + rewrite H. reflexivity.
  - specialize (H (String c line)). destruct (here (String c line)) as [v|].
    + destruct H as (m & rest & tl & ->). reflexivity.
    + rewrite H. exact IH.
Qed.

Lemma runOf_split (p : ascii -> bool) (s : string) :
  s = runOf p s ++ afterRun p s
  /\ allChars p (runOf p s) = true
  /\ stopsAt p (afterRun p s) = true.
Proof.
  induction s as [|c s (IH1 & IH2 & IH3)]; [repeat split|].
  simpl. destruct (p c) eqn:Ec; simpl.
  - rewrite Ec. repeat split; [now rewrite <- IH1|assumption|assumption].
  - rewrite Ec. repeat split.
Qed.

(** [alt=(\d+)] where the text begins. *)
Lemma alt_here (s : string) :
  match digitsHere s with
  | Some v =>
      exists m rest tl, ways altPattern s EmptyString = (m, rest, v) :: tl
  | None => ways altPattern s EmptyString = []
  end.
Proof.
  unfold digitsHere, altPattern. rewrite ways_lit_cat.
  destruct (stripPrefix "alt=" s) as [unread|]; [|reflexivity].
  destruct (runOf_split isDigit unread) as (Hs & Ha & Hstop).
  destruct (runOf isDigit unread) as [|c run] eqn:Er.
  - change (Go.isEmpty EmptyString) with true. cbv iota.
    change (EmptyString ++ afterRun isDigit unread)
      with (afterRun isDigit unread) in Hs. rewrite <- Hs in Hstop.
    change (ways (Group (Plus true (Class isDigit))) unread EmptyString)
      with (map (fun w : way => let '(m, unread, _) := w in (m, unread, m))
              (flat_map
                 (fun w : way =>
                    let '(m1, unread, cap1) := w in
                    map (after m1)
                        (iter true (ways (Class isDigit)) (S (length unread))
                              unread cap1))
                 (match unread with
                  | String c unread' =>
                      if isDigit c then [(Go.str c, unread', EmptyString)]
                      else []
                  | EmptyString => []
                  end))).
    destruct unread as [|d unread]; [reflexivity|].
    simpl in Hstop. apply negb_true_iff in Hstop. rewrite Hstop.
    reflexivity.
  - change (Go.isEmpty (String c run)) with false. cbv iota.
    simpl in Ha. apply andb_true_iff in Ha. destruct Ha as [Hc Ha].
    destruct (greedy_capture isDigit c run (afterRun isDigit unread)
                             EmptyString Hc Ha Hstop) as [tl Htl].
    remember (afterRun isDigit unread) as rest eqn:Erest.
    clear Erest Er. subst unread. rewrite Htl.
    eexists _, _, _. reflexivity.
Qed.

Lemma closedBy_split (p : ascii -> bool) (q : ascii) (s v : string) :
  closedBy p q s = Some v ->
  exists rest,
    s = v ++ String q rest
    /\ allChars p v = true
    /\ allChars (fun c => negb (Ascii.eqb c q)) v = true.
Proof.
  revert v. induction s as [|c s IH]; intros v H; [discriminate|].
  simpl in H. destruct (Ascii.eqb c q) eqn:Eq.
  - injection H as <-. apply Ascii.eqb_eq in Eq. subst c.
    exists s. repeat split.
  - destruct (p c) eqn:Ep; [|discriminate].
    destruct (closedBy p q s) as [v'|]; [|discriminate].
    injection H as <-. destruct (IH v' eq_refl) as (rest & -> & Hp & Hq).
    exists rest. simpl. rewrite Ep, Eq, Hp, Hq. repeat split.
Qed.

(** Without a closing [q] in reach, a lazy repetition of the class never
    stops before a [q]. *)
Lemma lazy_dead (p : ascii -> bool) (q : ascii) (fuel : nat) :
  forall (s cap : string),
    closedBy p q s = None ->
    Forall (fun w => stripPrefix (Go.str q) (unreadOf w) = None)
           (iter false (ways (Class p)) fuel s cap).
Proof.
  assert (Hhead : forall s, closedBy p q s = None ->
                            stripPrefix (Go.str q) s = None).
  { intros [|c s] H; [reflexivity|]. simpl in H. unfold Go.str. simpl.
    rewrite Ascii.eqb_sym. destruct (Ascii.eqb c q); [discriminate|].
    reflexivity. }
  induction fuel as [|fuel IH]; intros s cap H.
  - constructor; [|constructor]. now apply Hhead.
  - rewrite iter_S. cbv zeta. change (?a :: nil ++ ?l)%list with (a :: l).
    constructor; [now apply Hhead|].
    destruct s as [|c s]; [constructor|].
    change (ways (Class p) (String c s) cap)
      with (if p c then [(Go.str c, s, cap)] else []).
    simpl in H. destruct (Ascii.eqb c q); [discriminate|].
    destruct (p c); [|constructor].
    cbn [flat_map Go.isEmpty Go.str]. rewrite app_nil_r.
    apply Forall_map.
    assert (Hs : closedBy p q s = None)
      by (destruct (closedBy p q s); [discriminate|reflexivity]).
    eapply Forall_impl; [|exact (IH s cap Hs)].
    intros [[m u] k]. auto.
Qed.

(** A class repeated lazily, captured and closed by [q], where the text
    begins. *)
Lemma closed_here (p : ascii -> bool) (q : ascii) (s cap : string) :
  match closedBy p q s with
  | Some v =>
      exists rest tl,
        ways (Cat (Group (Star false (Class p))) (Lit (Go.str q))) s cap
        = (v ++ Go.str q, rest, v) :: tl
  | None =>
      ways (Cat (Group (Star false (Class p))) (Lit (Go.str q))) s cap = []
  end.
Proof.
  destruct (closedBy p q s) as [v|] eqn:E.
  - destruct (closedBy_split p q s v E) as (rest & -> & Hp & Hq).
    destruct (lazy_capture p q v rest cap Hp Hq) as [tl Htl].
    now exists rest, tl.
  - change (ways (Cat (Group (Star false (Class p))) (Lit (Go.str q))) s cap)
      with (flat_map (fun w : way =>
                        let '(m1, unread, cap1) := w in
                        map (after m1) (ways (Lit (Go.str q)) unread cap1))
              (map (fun w : way => let '(m, unread, _) := w in (m, unread, m))
                 (iter false (ways (Class p)) (S (length s)) s cap))).
    apply dead_stops. now apply lazy_dead.
Qed.

Lemma lit_closed_here (lit : string) (p : ascii -> bool) (q : ascii)
      (s : string) :
  match match stripPrefix lit s with
        | Some rest => closedBy p q rest
        | None => None
        end with
  | Some v =>
      exists m rest tl,
        ways (Cat (Lit lit)
                  (Cat (Group (Star false (Class p))) (Lit (Go.str q))))
             s EmptyString
        = (m, rest, v) :: tl
  | None =>
      ways (Cat (Lit lit)
                (Cat (Group (Star false (Class p))) (Lit (Go.str q))))
           s EmptyString
      = []
  end.
Proof.
  rewrite ways_lit_cat.
  destruct (stripPrefix lit s) as [unread|]; [|reflexivity].
  pose proof (closed_here p q unread EmptyString) as H.
  destruct (closedBy p q unread) as [v|].
  - destruct H as (rest & tl & ->). eexists _, _, _. reflexivity.
  - rewrite H. reflexivity.
Qed.

(** Claim C7, amended.  What [dfuFlash] extracts from a device line is
    what a direct reading of the line finds at the leftmost place where
    it finds something: for the alt setting the run of decimal digits
    right after an [alt=]; for the serial number the text between a
    [serial=] with its opening quote and the next quote, no newline in
    between; for the offset the token between an [Internal Flash  /] and
    the next slash when the token is made of decimal digits and the
    letter x, whether or not the [@] of the marker stands before.  On the
    example line that is 0, 3276365D3336 and 0x08000000; and when one of
    the three is empty the flash step returns the error that carries the
    device line. *)
Theorem descriptor_extraction :
  (forall line : string,
     regexpFind altPattern line = leftmost digitsHere line)
  /\ (forall line : string,
        regexpFind serialPattern line = leftmost quotedHere line)
  /\ (forall line : string,
        regexpFind offsetPattern line = leftmost tokenHere line)
  /\ (regexpFind altPattern exampleLine = "0"
      /\ regexpFind serialPattern exampleLine = "3276365D3336"
      /\ regexpFind offsetPattern exampleLine = "0x08000000")
  /\ (forall (f : FC) (dfuPath binaryPath : string) (run : ListRun)
             (listings : list ListRun) (flashRun : option Error),
        let device := flashDevice (dfuLines (Go.Split (output run) Go.NL)) in
        regexpFind altPattern device = EmptyString
        \/ regexpFind serialPattern device = EmptyString
        \/ regexpFind offsetPattern device = EmptyString ->
        dfuFlash f dfuPath binaryPath (run :: listings) flashRun
        = Done (Returned (Some (flashParametersError device)))
               [Executed dfuPath ["--list"] [] EmptyString]).
Proof.
  split; [|split; [|split; [|split]]].
  - apply find_leftmost. exact alt_here.
  - apply find_leftmost. intros s. unfold quotedHere, serialPattern.
    apply lit_closed_here.
  - apply find_leftmost. intros s. unfold tokenHere, offsetPattern.
    apply (lit_closed_here "Internal Flash  /" isDigitOrX "/"%char).
  - repeat split; vm_compute; reflexivity.
  - intros f dfuPath binaryPath run listings flashRun device H.
    unfold dfuFlash, dfuList. rewrite bind_assoc.
    unfold emit. rewrite bind_Done, bind_ret_l. fold device.
    assert (He : Go.isEmpty (regexpFind altPattern device)
                 || Go.isEmpty (regexpFind serialPattern device)
                 || Go.isEmpty (regexpFind offsetPattern device) = true).
    { destruct H as [H|[H|H]]; rewrite H; simpl;
        rewrite ?orb_true_r; reflexivity. }
    rewrite He. reflexivity.
Qed.

(** Claim C7 as stated fails.  On a line whose flash region starts at
    0x0800C000 the token between the marker and the next slash is that
    address, and the extraction is empty; and on a line where the text
    of the marker stands a first time without its [@], the token between
    the marker and the next slash is 0x08000000 and the offset extracted
    and flashed to is 0x1. *)
Lemma marker_token_not_extracted :
  (Go.Contains hexLine internalFlashMarker = true
   /\ tokenAfterMarker hexLine = Some "0x0800C000"
   /\ regexpFind offsetPattern hexLine = EmptyString
   /\ dfuFlash (sampleSession false) "/usr/bin/dfu-util" "inav/obj/x.bin"
               [mkListRun None (dfuDevicePrefix ++ hexLine)] None
      = Done (Returned (Some (flashParametersError hexLine)))
             [Executed "/usr/bin/dfu-util" ["--list"] [] EmptyString])
  /\ (Go.Contains shadowedLine internalFlashMarker = true
      /\ tokenAfterMarker shadowedLine = Some "0x08000000"
      /\ regexpFind offsetPattern shadowedLine = "0x1"
      /\ dfuFlash (sampleSession false) "/usr/bin/dfu-util" "inav/obj/x.bin"
                  [mkListRun None (dfuDevicePrefix ++ shadowedLine)] None
         = Done (Returned None)
                [Executed "/usr/bin/dfu-util" ["--list"] [] EmptyString;
                 Printed OsStdout "Flashing %s via DFU to offset %s...\n"
                         [VString "x.bin"; VString "0x1"];
                 Executed "/usr/bin/dfu-util"
                          ["-a"; "0"; "-S"; "3276365D3336";
                           "-s"; "0x1:leave";
                           "-D"; "inav/obj/x.bin"] [] EmptyString]).
Proof. repeat split; vm_compute; reflexivity. Qed.

(** Claim C9 fails on the code.  [dfuList] drops what [cmd.Run()] returns:
    whatever the run of the lister did, the error it hands back is nil.
    So when the lister fails at every poll, [Flash] polls until the
    deadline and returns the timeout error, not the failure of the
    tool. *)
Theorem lister_failure_not_returned :
  (forall (dfuPath : string) (run : ListRun),
     dfuList dfuPath run
     = Done (dfuLines (Go.Split (output run) Go.NL), None)
            [Executed dfuPath ["--list"] [] EmptyString])
  /\ result (Flash (sampleSession false) "inav" "TARGET1" listerFailsWorld)
     = Some (Returned (Some timedOut)).
Proof. split; [reflexivity|vm_compute; reflexivity]. Qed.

(** ** The theorems at concrete inputs *)

Lemma short_payload_panics_witness :
  handleFrame inavFeatureDebugTrace inavFunctionMSP inavFunctionDebugTrace
              (sampleSession false) (mkFrame mspBoardInfo targetABC)
  = Panicked "slice bounds out of range" []
  /\ handleFrame inavFeatureDebugTrace inavFunctionMSP inavFunctionDebugTrace
                 (sampleSession false) (mkFrame mspBuildInfo boardHeader)
     = Panicked "slice bounds out of range" []
  /\ panicked (handleFrame inavFeatureDebugTrace inavFunctionMSP
                           inavFunctionDebugTrace
                           (sampleSession false) (mkFrame mspBoardInfo boardID4))
     = false.
Proof.
  split; [|split].
  - destruct (short_payload_panics inavFeatureDebugTrace inavFunctionMSP
                inavFunctionDebugTrace (sampleSession false)
                (mkFrame mspBoardInfo targetABC)) as [H _].
    destruct (H eq_refl ltac:(simpl; lia) [] []) as [H1 _]. exact H1.
  - destruct (short_payload_panics inavFeatureDebugTrace inavFunctionMSP
                inavFunctionDebugTrace (sampleSession false)
                (mkFrame mspBuildInfo boardHeader)) as (_ & H & _).
    destruct (H eq_refl ltac:(simpl; lia) [] []) as [H1 _]. exact H1.
  - destruct (short_payload_panics inavFeatureDebugTrace inavFunctionMSP
                inavFunctionDebugTrace (sampleSession false)
                (mkFrame mspBoardInfo boardID4)) as (_ & _ & H & _).
    exact (H eq_refl ltac:(simpl; lia) eq_refl).
Defined.

(** Claim C10 as stated fails: this board-info payload has three bytes,
    and the handler does not panic on it; the slice of four reaches into
    the spare room of the buffer, whose first byte ends the board
    identifier. *)
Lemma short_board_info_within_capacity :
  List.length (Payload shortBoardInfo) = 3
  /\ handleFrame inavFeatureDebugTrace inavFunctionMSP
                 inavFunctionDebugTrace (sampleSession false) shortBoardInfo
     = Done (set_boardID (sampleSession false) "AFNZ")
            [Printed OsStdout infoFormat
                     (infoArgs (set_boardID (sampleSession false) "AFNZ"))]
  /\ panicked (StartUpdating inavFeatureDebugTrace inavFunctionMSP
                 inavFunctionDebugTrace (sampleSession false)
                 [GotFrame shortBoardInfo] [])
     = false.
Proof. repeat split. Qed.

Lemma board_info_target_name_witness :
  option_map targetName
    (result (handleFrame inavFeatureDebugTrace inavFunctionMSP
                         inavFunctionDebugTrace (sampleSession false)
                         (mkFrame mspBoardInfo boardID4)))
  = Some EmptyString
  /\ option_map targetName
       (result (handleFrame inavFeatureDebugTrace inavFunctionMSP
                  inavFunctionDebugTrace (sampleSession false)
                  (mkFrame mspBoardInfo (boardHeader ++ x03 :: targetABC))))
     = Some "ABC"
  /\ option_map targetName
       (result (handleFrame inavFeatureDebugTrace inavFunctionMSP
                  inavFunctionDebugTrace (sampleSession false)
                  (mkFrame mspBoardInfo (boardHeader ++ x04 :: targetABC))))
     = Some EmptyString.
Proof.
  split; [|split].
  - destruct (board_info_target_name inavFeatureDebugTrace inavFunctionMSP
                inavFunctionDebugTrace (sampleSession false)
                (mkFrame mspBoardInfo boardID4) eq_refl eq_refl) as [H _].
    exact (H eq_refl).
  - destruct (board_info_target_name inavFeatureDebugTrace inavFunctionMSP
                inavFunctionDebugTrace (sampleSession false)
                (mkFrame mspBoardInfo (boardHeader ++ x03 :: targetABC))
                eq_refl eq_refl) as (_ & H & _).
    exact (H boardHeader x03 targetABC eq_refl eq_refl eq_refl).
  - destruct (board_info_target_name inavFeatureDebugTrace inavFunctionMSP
                inavFunctionDebugTrace (sampleSession false)
                (mkFrame mspBoardInfo (boardHeader ++ x04 :: targetABC))
                eq_refl eq_refl) as (_ & _ & H).
    exact (H boardHeader x04 targetABC eq_refl eq_refl eq_refl).
Defined.



Lemma reconnect_resets_and_requests_info_witness :
  exists tr,
    reconnect (sampleSession false) [None; None; Some (Port 1)]
    = Done (Some (fresh (sampleOptions false) (Port 1), [])) tr
    /\ commands tr = map (fun c => (c, [])) infoRequestCodes
    /\ StartUpdating inavFeatureDebugTrace inavFunctionMSP
                     inavFunctionDebugTrace (sampleSession false)
                     [GotEOF; GotFrame (mkFrame mspFCVariant [x49])]
                     [None; None; Some (Port 1)]
       = following
           (Printed OsStdout "Board disconnected, trying to reconnect...\n" []
            :: tr)
           (StartUpdating inavFeatureDebugTrace inavFunctionMSP
                          inavFunctionDebugTrace
                          (fresh (sampleOptions false) (Port 1))
                          [GotFrame (mkFrame mspFCVariant [x49])] []).
Proof.
  exact (reconnect_resets_and_requests_info
           inavFeatureDebugTrace inavFunctionMSP inavFunctionDebugTrace
           (sampleSession false) OsStdout 2 (Port 1) []
           [GotFrame (mkFrame mspFCVariant [x49])] eq_refl).
Defined.

(** A configuration of two ports, neither with the MSP function. *)
Definition portsWithoutMSP : list MSPSerialConfig :=
  [mkSerialConfig x00 2; mkSerialConfig x01 0].

(** Claim C1 fails on the code.  No entry of this frame has the MSP bit
    and enablement is allowed: the enabling loop finds no port, prints
    nothing and changes no entry, and the handler nevertheless sends the
    set-serial-config command, with the entries as received, and the
    persist command.  Where the feature case has nothing to add, on a
    mask that already has the debug-trace bit, it sends nothing. *)
Theorem no_msp_port_commands_issued :
  entries [x00; x02; x00; x01; x00; x00] = Some portsWithoutMSP
  /\ forallb (fun c => (Z.land (FunctionMask c) inavFunctionMSP =? 0)%Z)
             portsWithoutMSP = true
  /\ shouldEnableDebugTrace (sampleSession true) = true
  /\ handleFrame inavFeatureDebugTrace inavFunctionMSP
                 inavFunctionDebugTrace (sampleSession true)
                 (mkFrame mspCFSerialConfig [x00; x02; x00; x01; x00; x00])
     = Done (sampleSession true)
            [Wrote (Port 0) mspSetCFSerialConfig
                   [VSerialConfigs portsWithoutMSP];
             Wrote (Port 0) mspEepromWrite []]
  /\ commands
       (trace (handleFrame inavFeatureDebugTrace inavFunctionMSP
                 inavFunctionDebugTrace (sampleSession true)
                 (mkFrame mspFeature [x00; x00; x00; x80])))
     = [].
Proof. repeat split. Qed.

Lemma single_msp_port_patched_witness :
  handleFrame inavFeatureDebugTrace inavFunctionMSP inavFunctionDebugTrace
              (sampleSession true)
              (mkFrame mspCFSerialConfig [x00; x02; x00; x01; x01; x00])
  = Done (sampleSession true)
         [Printed OsStdout "Enabling FUNCTION_DEBUG_TRACE on serial port %v\n"
                  [VByte x01];
          Wrote (Port 0) mspSetCFSerialConfig
                [VSerialConfigs
                   [mkSerialConfig x00 2;
                    mkSerialConfig x01 (Z.lor 1 inavFunctionDebugTrace)]];
          Wrote (Port 0) mspEepromWrite []].
Proof.
  apply (single_msp_port_patched
           inavFeatureDebugTrace inavFunctionMSP inavFunctionDebugTrace
           (sampleSession true)
           (mkFrame mspCFSerialConfig [x00; x02; x00; x01; x01; x00])
           [mkSerialConfig x00 2] (mkSerialConfig x01 1) []
           (Port 0) OsStdout); try reflexivity.
  - discriminate.
  - intros c [<-|[]]; reflexivity.
  - intros c [<-|[<-|[]]]; reflexivity.
  - discriminate.
Defined.

Lemma feature_frame_keeps_reported_bits_witness :
  (exists f' tr,
     handleFrame inavFeatureDebugTrace inavFunctionMSP inavFunctionDebugTrace
                 (sampleSession true) (mkFrame mspFeature [x02; x00; x00; x80])
     = Done f' tr
     /\ Z.land (features f') 2147483650 = 2147483650%Z
     /\ (features f' = 2147483650%Z
         \/ features f' = Z.lor 2147483650 inavFeatureDebugTrace)
     /\ (Z.land 2147483650 inavFeatureDebugTrace <> 0%Z ->
         features f' = 2147483650%Z /\ tr = []))
  /\ exists f' tr,
       StartUpdating inavFeatureDebugTrace inavFunctionMSP
                     inavFunctionDebugTrace (sampleSession true)
                     (map GotFrame [mkFrame mspFeature [x02; x00; x00; x80];
                                    mkFrame mspFeature [x02; x00; x00; x00]])
                     []
       = Done (Receiving f' []) tr
       /\ Z.land (features f') inavFeatureDebugTrace <> 0%Z.
Proof.
  destruct (feature_frame_keeps_reported_bits
              inavFeatureDebugTrace inavFunctionMSP inavFunctionDebugTrace
              (sampleSession true) (mkFrame mspFeature [x02; x00; x00; x80])
              2147483650%Z [] eq_refl eq_refl eq_refl) as [H1 H2].
  split; [exact H1|].
  apply (H2 eq_refl); [discriminate|].
  constructor; [reflexivity|constructor].
Defined.

(** Claim C3 as stated fails: the stored mask has the debug-trace bit,
    enablement is not requested, and a feature-set frame whose mask lacks
    the bit clears it in the stored mask. *)
Lemma stored_debug_trace_bit_cleared :
  Z.land (features (set_features (sampleSession false) inavFeatureDebugTrace))
         inavFeatureDebugTrace <> 0%Z
  /\ handleFrame inavFeatureDebugTrace inavFunctionMSP inavFunctionDebugTrace
                 (set_features (sampleSession false) inavFeatureDebugTrace)
                 (mkFrame mspFeature [x00; x00; x00; x00])
     = Done (set_features (sampleSession false) 0) []
  /\ Z.land (features (set_features (sampleSession false) 0))
            inavFeatureDebugTrace = 0%Z.
Proof. repeat split. discriminate. Qed.

Lemma newest_matching_binary_witness :
  ((forall c, In c exampleDirectory ->
      ~ exists stem, Name c = stem ++ "TARGET1" ++ ".bin")
   /\ Flash (sampleSession false) "." "TARGET1" exampleWorld
      = Done (Returned
                (Some (Errorf "could not find binary for target %s"
                              [VString "TARGET1"])))
             [Printed OsStdout "Building binary for %s...\n"
                      [VString "TARGET1"];
              Executed "make" ["binary"] ["TARGET=" ++ "TARGET1"] "."])
  \/ (exists b,
        In b exampleDirectory
        /\ (exists stem, Name b = stem ++ "TARGET1" ++ ".bin")
        /\ (forall c, In c exampleDirectory ->
              (exists stem, Name c = stem ++ "TARGET1" ++ ".bin") ->
              (ModTime c <= ModTime b)%Z)
        /\ forall (port : MSP) (tw : list Event) (listings' : list ListRun),
             msp (sampleSession false) = Some port ->
             rebootIntoBootloader exampleWorld = None ->
             dfuWait "/usr/bin/dfu-util" (clock exampleWorld)
                     (listings exampleWorld)
             = Done (Returned (None, listings')) tw ->
             Flash (sampleSession false) "." "TARGET1" exampleWorld
             = following
                 (flashPreparation OsStdout port "." "TARGET1" ++ tw)
                 (dfuFlash (sampleSession false) "/usr/bin/dfu-util"
                           (Go.Join (Go.Join "." "obj") (Name b))
                           listings' (flashRun exampleWorld))).
Proof.
  apply (proj1 newest_matching_binary (sampleSession false) "." "TARGET1"
               exampleWorld OsStdout "/usr/bin/dfu-util" exampleDirectory);
    try reflexivity.
  discriminate.
Defined.

Lemma descriptor_extraction_witness :
  dfuFlash (sampleSession false) "/usr/bin/dfu-util" "inav/obj/x.bin"
           [mkListRun None "No DFU capable USB device available"] None
  = Done (Returned (Some (flashParametersError EmptyString)))
         [Executed "/usr/bin/dfu-util" ["--list"] [] EmptyString].
Proof.
  destruct descriptor_extraction as (_ & _ & _ & _ & Herr).
  apply (Herr (sampleSession false) "/usr/bin/dfu-util" "inav/obj/x.bin"
              (mkListRun None "No DFU capable USB device available") [] None).
  left. reflexivity.
Defined.

(** * Further properties of the code *)

(** ** Vocabulary *)

(** The version triple as one number. *)
Definition packed (major minor patch : byte) : N :=
  (65536 * Byte.to_N major + 256 * Byte.to_N minor + Byte.to_N patch)%N.

(** A property of every event of a computation's trace. *)
Definition always {A : Type} (P : Event -> Prop) (m : Run A) : Prop :=
  Forall P (trace m).

(** The events of a session's own: printing on its output stream and
    writing a command to its port. *)
Definition own (f : FC) (e : Event) : Prop :=
  match e with
  | Printed w _ _ => Stdout (opts f) = Some w
  | Wrote port _ _ => msp f = Some port
  | _ => False
  end.

Definition isPrint (e : Event) : Prop :=
  match e with Printed _ _ _ => True | _ => False end.

(** A property of what a computation returns, when it returns. *)
Definition yields {A : Type} (Q : A -> Prop) (m : Run A) : Prop :=
  forall a, result m = Some a -> Q a.

(** The connection of a session: its options and its port. *)
Definition sameConnection (f f' : FC) : Prop :=
  opts f' = opts f /\ msp f' = msp f.

Definition changesSession (c : MSPCode) : bool :=
  match c with
  | mspFCVariant | mspFCVersion | mspBoardInfo | mspFeature => true
  | _ => false
  end.

(** The target [Flash] works on. *)
Definition resolvedTarget (f : FC) (explicitTarget : string) : string :=
  if Go.isEmpty explicitTarget then targetName f else explicitTarget.

Definition listed (dfuPath : string) : list Event :=
  [Executed dfuPath ["--list"] [] EmptyString].

(** The characters [dfuList] trims off a line. *)
Definition lineCutset : string :=
  String Go.NL (String Go.CR (String Go.TAB " ")).

(** Lines put together into the text of an output, a newline between
    two of them. *)
Definition unlines (lines : list string) : string :=
  concat (Go.str Go.NL) lines.

(** A line of the lister's output that announces a device, and the
    device it announces. *)
Definition isDeviceLine (ll : string) : bool :=
  Go.HasPrefix (Go.Trim ll lineCutset) dfuDevicePrefix.

Definition deviceOf (ll : string) : string :=
  Go.drop (length dfuDevicePrefix) (Go.Trim ll lineCutset).

(** The line that announces the device [d], and what makes [d] the text
    of a device: it holds no newline, and the line that announces it has
    nothing to trim. *)
Definition deviceLine (d : string) : string := dfuDevicePrefix ++ d.


(** ** The handler *)

(** Property X1.  [versionGte] orders version triples as the numbers they
    pack into: the session's version is at least major.minor.patch exactly
    when its packed triple is not below the packed argument. *)
Theorem versionGte_packed (f : FC) (major minor patch : byte) :
  versionGte f major minor patch = true
  <-> (packed major minor patch
       <= packed (versionMajor f) (versionMinor f) (versionPatch f))%N.
Proof.
  unfold versionGte, packed.
  pose proof (Byte.to_N_bounded major). pose proof (Byte.to_N_bounded minor).
  pose proof (Byte.to_N_bounded patch).
  pose proof (Byte.to_N_bounded (versionMajor f)).
  pose proof (Byte.to_N_bounded (versionMinor f)).
  pose proof (Byte.to_N_bounded (versionPatch f)).
  rewrite !orb_true_iff, !andb_true_iff, !N.ltb_lt, !N.eqb_eq, N.leb_le.
  lia.
Qed.

(** Property X2.  Enablement is allowed exactly when it was requested, the
    variant is INAV and the version is 2.x or above or 1.9 or above within
    1.x: the patch byte never matters. *)
Theorem policy_ignores_patch (f : FC) :
  shouldEnableDebugTrace f = true
  <-> EnableDebugTrace (opts f) = true /\ variant f = "INAV"
      /\ ((2 <= Byte.to_N (versionMajor f))%N
          \/ (Byte.to_N (versionMajor f) = 1%N
              /\ (9 <= Byte.to_N (versionMinor f))%N)).
Proof.
  unfold shouldEnableDebugTrace, versionGte. cbv zeta.
  change (Byte.to_N x01) with 1%N. change (Byte.to_N x09) with 9%N.
  change (Byte.to_N x00) with 0%N.
  rewrite !andb_true_iff, !orb_true_iff, !andb_true_iff, String.eqb_eq,
    !N.ltb_lt, !N.eqb_eq, N.leb_le.
  split; [intros [[H1 H2] H3]|intros (H1 & H2 & H3)]; repeat split; auto; lia.
Qed.

(** *** What the handler may do *)

Lemma commands_app (t t' : list Event) :
  commands (t ++ t') = (commands t ++ commands t')%list.
Proof.
  induction t as [|e t IH]; [reflexivity|].
  destruct e; simpl; now rewrite IH.
Qed.

Lemma trace_bind {A B : Type} (m : Run A) (k : A -> Run B) :
  trace (bind m k)
  = match m with
    | Done a t => (t ++ trace (k a))%list
    | Panicked _ t => t
    end.
Proof.
  destruct m as [a t|r t]; simpl; [|reflexivity]. now destruct (k a).
Qed.

Lemma always_bind {A B : Type} (P : Event -> Prop) (m : Run A)
      (k : A -> Run B) :
  always P m -> (forall a, always P (k a)) -> always P (bind m k).
Proof.
  unfold always. intros Hm Hk. rewrite trace_bind.
  destruct m as [a t|r t]; [|assumption].
  apply Forall_app. split; [assumption|apply Hk].
Qed.

Lemma always_ret {A : Type} (P : Event -> Prop) (a : A) : always P (ret a).
Proof. constructor. Qed.

Lemma always_panic {A : Type} (P : Event -> Prop) (r : string) :
  always P (@panic A r).
Proof. constructor. Qed.

Lemma always_sliced {A : Type} (P : Event -> Prop) (r : option (list A)) :
  always P (sliced r).
Proof. destruct r; constructor. Qed.

Lemma always_Byte (P : Event -> Prop) (fr : MSPFrame) (i : nat) :
  always P (Byte fr i).
Proof. unfold Byte. destruct (nth_error _ _); constructor. Qed.

Lemma always_printf (P : Event -> Prop) (f : FC) (format : string)
      (args : list Value) :
  (forall w, Stdout (opts f) = Some w -> P (Printed w format args)) ->
  always P (printf f format args).
Proof.
  intros H. unfold printf. destruct (Stdout (opts f)) as [w|].
  - repeat constructor. now apply H.
  - constructor.
Qed.

Lemma always_WriteCmd (P : Event -> Prop) (f : FC) (code : MSPCode)
      (args : list Value) :
  (forall port, msp f = Some port -> P (Wrote port code args)) ->
  always P (WriteCmd f code args).
Proof.
  intros H. unfold WriteCmd. destruct (msp f) as [port|].
  - repeat constructor. now apply H.
  - constructor.
Qed.

Lemma always_printInfo (P : Event -> Prop) (f : FC) :
  (forall w format args, Stdout (opts f) = Some w ->
                         P (Printed w format args)) ->
  always P (printInfo f).
Proof.
  intros H. unfold printInfo. destruct (_ && _).
  - apply always_printf. intros w Hw. now apply H.
  - constructor.
Qed.

Lemma prints_no_commands (t : list Event) :
  Forall isPrint t -> commands t = [].
Proof.
  induction 1 as [|e t He _ IH]; [reflexivity|].
  destruct e; simpl in *; try contradiction. assumption.
Qed.

Ltac step :=
  first [ apply always_ret | apply always_panic | apply always_sliced
        | apply always_Byte
        | apply always_printf; intros; simpl; auto
        | apply always_WriteCmd; intros; simpl; auto
        | apply always_printInfo; intros; simpl; auto
        | apply always_bind; [|intros] ].

Section HandlerFootprint.

Variable mspFCFeatureDebugTrace : Z.
Variable serialFunctionMSP : Z.
Variable serialFunctionDebugTrace : Z.

Local Notation "'handle'" :=
  (handleFrame mspFCFeatureDebugTrace serialFunctionMSP
               serialFunctionDebugTrace).
Local Notation "'receive'" :=
  (StartUpdating mspFCFeatureDebugTrace serialFunctionMSP
                 serialFunctionDebugTrace).

Lemma always_readPorts (P : Event -> Prop) (fuel : nat) :
  forall unread has acc, always P (readPorts serialFunctionMSP serialFunctionDebugTrace fuel unread has acc).
Proof.
  induction fuel as [|fuel IH]; intros unread has acc; simpl.
  - constructor.
  - destruct (ReadSerialConfig unread) as [[|]|[cfg rest]];
      try constructor. apply IH.
Qed.

Lemma always_enable (P : Event -> Prop) (f : FC) (cfgs : list MSPSerialConfig) :
  (forall w format args, Stdout (opts f) = Some w ->
                         P (Printed w format args)) ->
  always P (enableOnFirstMSPPort serialFunctionMSP serialFunctionDebugTrace f cfgs).
Proof.
  intros H. induction cfgs as [|c cfgs IH]; simpl; [constructor|].
  destruct (negb _); repeat step; exact IH.
Qed.

(** With enablement off the handler prints and nothing else. *)
Lemma handler_prints_only (f : FC) (fr : MSPFrame) :
  shouldEnableDebugTrace f = false ->
  always isPrint (handle f fr).
Proof.
  intros Hpol. unfold handleFrame.
  destruct (Code fr); repeat step.
  - destruct (9 <=? _)%nat; repeat step.
    destruct (_ <? _)%nat; repeat step.
  - cbv zeta.
    assert (Hp : shouldEnableDebugTrace
                   match ReadUint32 (Payload fr) with
                   | inl _ => f
                   | inr (v, _) => set_features f v
                   end = false).
    { destruct (ReadUint32 (Payload fr)) as [|[v r]]; assumption. }
    rewrite Hp, andb_false_r. step.
  - rewrite Hpol. step.
Qed.

(** Property X3.  While enablement is not allowed the handler sends no
    command to the board, whatever frame arrives, also when it panics. *)
Theorem no_commands_without_policy (f : FC) (fr : MSPFrame) :
  shouldEnableDebugTrace f = false ->
  commands (trace (handle f fr)) = [].
Proof.
  intros H. apply prints_no_commands. now apply handler_prints_only.
Qed.

Lemma yields_bind {A B : Type} (Q : B -> Prop) (m : Run A) (k : A -> Run B) :
  (forall a, yields Q (k a)) -> yields Q (bind m k).
Proof.
  unfold yields. intros Hk b. destruct m as [a t|r t]; simpl; [|discriminate].
  specialize (Hk a b). destruct (k a); simpl in *; auto.
Qed.

Lemma yields_bind_from {A B : Type} (P : A -> Prop) (Q : B -> Prop)
      (m : Run A) (k : A -> Run B) :
  yields P m -> (forall a, P a -> yields Q (k a)) -> yields Q (bind m k).
Proof.
  unfold yields. intros Hm Hk b. destruct m as [a t|r t]; simpl; [|discriminate].
  specialize (Hk a (Hm a eq_refl) b). destruct (k a); simpl in *; auto.
Qed.

Lemma yields_ret {A : Type} (Q : A -> Prop) (a : A) : Q a -> yields Q (ret a).
Proof. intros H b Hb. injection Hb as <-. exact H. Qed.

Lemma yields_panic {A : Type} (Q : A -> Prop) (r : string) :
  yields Q (@panic A r).
Proof. intros b Hb. discriminate. Qed.

Ltac settle :=
  repeat first [ apply yields_ret; repeat split
               | apply yields_panic
               | apply yields_bind; intros ].

Lemma handler_keeps_connection (f : FC) (fr : MSPFrame) :
  yields (sameConnection f) (handle f fr).
Proof.
  unfold handleFrame. destruct (Code fr); try solve [settle].
  - apply yields_bind. intros id.
    apply (yields_bind_from (sameConnection f)).
    + destruct (9 <=? _)%nat; [|settle].
      apply yields_bind. intros n. destruct (_ <? _)%nat; settle.
    + intros g [Ho Hm]. settle; assumption.
  - cbv zeta. destruct (ReadUint32 (Payload fr)) as [|[v r]];
      destruct (_ && _); settle.
  - destruct (shouldEnableDebugTrace f); [|settle].
    apply yields_bind. intros [has cfgs]. destruct (negb has); settle.
Qed.

Lemma always_bind_from {A B : Type} (P : Event -> Prop) (R : A -> Prop)
      (m : Run A) (k : A -> Run B) :
  always P m -> yields R m -> (forall a, R a -> always P (k a)) ->
  always P (bind m k).
Proof.
  unfold always, yields. intros Hm Hr Hk. rewrite trace_bind.
  destruct m as [a t|r t]; [|assumption].
  apply Forall_app. split; [assumption|]. apply Hk, Hr. reflexivity.
Qed.

Lemma handler_own_events (f : FC) (fr : MSPFrame) :
  always (own f) (handle f fr).
Proof.
  unfold handleFrame. destruct (Code fr); try solve [repeat step].
  - apply always_bind; [step|]. intros id.
    apply (always_bind_from _ (sameConnection f)).
    + destruct (9 <=? _)%nat; [|step].
      apply always_bind; [step|]. intros n.
      destruct (_ <? _)%nat; repeat step.
    + destruct (9 <=? _)%nat; [|settle].
      apply yields_bind. intros n. destruct (_ <? _)%nat; settle.
    + intros g [Ho Hm]. repeat step. congruence.
  - cbv zeta. destruct (ReadUint32 (Payload fr)) as [|[v r]];
      destruct (_ && _); repeat step.
  - destruct (shouldEnableDebugTrace f); [|step].
    apply always_bind; [apply always_readPorts|].
    intros [has cfgs]. destruct (negb has); repeat step.
    apply always_enable. intros; simpl; auto.
Qed.

Lemma handler_leaves_session (f : FC) (fr : MSPFrame) :
  changesSession (Code fr) = false ->
  yields (eq f) (handle f fr).
Proof.
  unfold handleFrame.
  destruct (Code fr); try discriminate; intros _; try solve [settle].
  destruct (shouldEnableDebugTrace f); [|settle].
  apply yields_bind. intros [has cfgs]. destruct (negb has); settle.
Qed.

(** Property X4.  A frame that is handled leaves the options and the port
    of the session alone; every event it causes is a print on the
    session's own stream or a command on the session's own port (it never
    closes, sleeps, reboots or runs a tool); and unless the frame is a
    variant, version, board-info or feature-set frame the whole session is
    unchanged. *)
Theorem handler_footprint (f : FC) (fr : MSPFrame) (f' : FC) (tr : list Event) :
  handle f fr = Done f' tr ->
  opts f' = opts f /\ msp f' = msp f
  /\ Forall (own f) tr
  /\ (changesSession (Code fr) = false -> f' = f).
Proof.
  intros H.
  pose proof (handler_keeps_connection f fr f') as Hk.
  pose proof (handler_own_events f fr) as Ho.
  pose proof (fun Hc => handler_leaves_session f fr Hc f') as Hl.
  unfold always in Ho. rewrite H in *. simpl in *.
  destruct (Hk eq_refl) as [H1 H2]. repeat split; auto.
  intros Hc. symmetry. now apply Hl.
Qed.

Lemma both_after_patch (mask : Z) :
  Z.land mask serialFunctionMSP = serialFunctionMSP ->
  Z.land (Z.lor mask serialFunctionDebugTrace) (Z.lor serialFunctionMSP serialFunctionDebugTrace) = Z.lor serialFunctionMSP serialFunctionDebugTrace.
Proof.
  intros H. apply Z.bits_inj'. intros n _.
  pose proof (f_equal (fun z => Z.testbit z n) H) as Hn. simpl in Hn.
  rewrite Z.land_spec in Hn. rewrite Z.land_spec, !Z.lor_spec.
  destruct (Z.testbit mask n), (Z.testbit serialFunctionMSP n), (Z.testbit serialFunctionDebugTrace n);
    simpl in *; congruence.
Qed.

(** Property X5.  A serial-port-configuration frame with an entry that has
    both function bits is handled without any event or change, and the
    sequence the patch produces from an entry with the MSP bits is of that
    kind: the answer to the patched configuration causes no second
    patch. *)
Theorem serial_patch_is_stable (f : FC) (fr : MSPFrame)
        (cfgs : list MSPSerialConfig) :
  Code fr = mspCFSerialConfig ->
  entries (Payload fr) = Some cfgs ->
  (existsb (hasBoth serialFunctionMSP serialFunctionDebugTrace) cfgs = true ->
   handle f fr = Done f [])
  /\ (forall pre e post,
        cfgs = (pre ++ mkSerialConfig (Identifier e)
                         (Z.lor (FunctionMask e) serialFunctionDebugTrace) :: post)%list ->
        Z.land (FunctionMask e) serialFunctionMSP = serialFunctionMSP ->
        handle f fr = Done f []).
Proof.
  intros Hc He.
  assert (Hstable : existsb (hasBoth serialFunctionMSP serialFunctionDebugTrace) cfgs = true ->
                    handle f fr = Done f []).
  { intros Hb. unfold handleFrame. rewrite Hc.
    destruct (shouldEnableDebugTrace f); [|reflexivity].
    rewrite (readPorts_entries serialFunctionMSP serialFunctionDebugTrace _ _ cfgs) by (auto; lia).
    rewrite Hb. reflexivity. }
  split; [exact Hstable|].
  intros pre e post -> Hm. apply Hstable.
  rewrite existsb_app. simpl. unfold hasBoth at 2. simpl.
  rewrite both_after_patch by assumption. rewrite Z.eqb_refl.
  now rewrite orb_true_r.
Qed.

Lemma reconnectLoop_failing (f : FC) (k : nat) :
  reconnectLoop f (repeat None k) = Done None (repeat (Slept 1) k).
Proof.
  induction k as [|k IH]; [reflexivity|].
  simpl. now rewrite IH.
Qed.

(** Property X10.  While every open fails, [reconnect] keeps sleeping one
    millisecond per attempt and does not return: after the port is closed
    and [k] attempts failed the session is still reconnecting, and the
    receive loop has handled nothing further. *)
Theorem reconnect_never_gives_up (f : FC) (w : Writer) (k : nat)
        (reads : list ReadFrameResult) :
  Stdout (opts f) = Some w ->
  reconnect f (repeat None k)
  = Done None (closing f ++ repeat (Slept 1) k)%list
  /\ receive f (GotEOF :: reads) (repeat None k)
     = Done Reconnecting
            (Printed w "Board disconnected, trying to reconnect...\n" []
             :: closing f ++ repeat (Slept 1) k)%list.
Proof.
  intros Hw.
  assert (Hr : reconnect f (repeat None k)
               = Done None (closing f ++ repeat (Slept 1) k)%list).
  { unfold reconnect, closing. destruct (msp f) as [port|].
    - simpl. now rewrite reconnectLoop_failing.
    - rewrite bind_ret_l. apply reconnectLoop_failing. }
  split; [exact Hr|].
  simpl StartUpdating. unfold printf. rewrite Hw, Hr.
  unfold emit. simpl. now rewrite app_nil_r.
Qed.

(** Property X11.  The receive loop handles a sequence of reads piece by
    piece: when a first part leaves it receiving, the whole does what the
    rest does from there, after the events of the first part. *)
Theorem receive_loop_composes (reads1 : list ReadFrameResult) :
  forall (f : FC) (opens : list (option MSP)) (reads2 : list ReadFrameResult)
         (f1 : FC) (opens1 : list (option MSP)) (t1 : list Event),
    receive f reads1 opens = Done (Receiving f1 opens1) t1 ->
    receive f (reads1 ++ reads2) opens
    = following t1 (receive f1 reads2 opens1).
Proof.
  induction reads1 as [|r reads1 IH]; intros f opens reads2 f1 opens1 t1 H.
  - simpl in H. injection H as <- <- <-. simpl. now rewrite following_nil.
  - simpl app. destruct r as [fr| |err|err]; simpl in *.
    + destruct (handle f fr) as [g t|r t]; [|discriminate].
      simpl in H. simpl.
      destruct (receive g reads1 opens) as [st t'|r t'] eqn:E;
        [|discriminate].
      injection H as -> <-.
      rewrite (IH g opens reads2 f1 opens1 t' E).
      unfold following. destruct (receive f1 reads2 opens1);
        simpl; now rewrite app_assoc.
    + destruct (printf f _ _) as [[] t|r t]; [|discriminate]. simpl in *.
      destruct (reconnect f opens) as [[[g o]|] t'|r t']; simpl in *;
        try discriminate.
      destruct (receive g reads1 o) as [st t''|r t''] eqn:E;
        [|discriminate].
      injection H as -> <-.
      rewrite (IH g o reads2 f1 opens1 t'' E).
      unfold following. destruct (receive f1 reads2 opens1);
        simpl; now rewrite !app_assoc.
    + destruct (printf f _ _) as [[] t|r t]; [|discriminate]. simpl in *.
      destruct (receive f reads1 opens) as [st t'|r t'] eqn:E;
        [|discriminate].
      injection H as -> <-.
      rewrite (IH f opens reads2 f1 opens1 t' E).
      unfold following. destruct (receive f1 reads2 opens1);
        simpl; now rewrite app_assoc.
    + discriminate.
Qed.

End HandlerFootprint.

(** Property X9.  [NewFC] hands back the error of a failed open without
    sending anything; on a successful open it yields a connected session
    with empty identity, the output stream defaulted to the standard
    output when none was given, the other options kept, and it sends the
    seven info requests. *)
Theorem NewFC_connects (o : FCOptions) :
  (forall err, NewFC o (inl err) = Done (inl err) [])
  /\ (forall port,
        exists f,
          NewFC o (inr port) = Done (inr f) (infoRequests port)
          /\ f = fresh (opts f) port
          /\ ready f = true
          /\ Stdout (opts f)
             = Some (match Stdout o with Some w => w | None => OsStdout end)
          /\ PortName (opts f) = PortName o
          /\ BaudRate (opts f) = BaudRate o
          /\ EnableDebugTrace (opts f) = EnableDebugTrace o).
Proof.
  split; [reflexivity|]. intros port. unfold NewFC.
  destruct (Stdout o) as [w|] eqn:Hw.
  - exists (fresh o port). repeat split; try assumption.
    unfold ready. simpl. now rewrite Hw.
  - exists (fresh (mkOptions (PortName o) (BaudRate o) (Some OsStdout)
                             (EnableDebugTrace o)) port).
    repeat split.
Qed.

(** *** The flash sequence *)

(** Property X12.  [Flash] uses the explicit target when it is not empty,
    whatever name was detected, and the detected name otherwise; with both
    empty it returns the empty-target error before anything is printed or
    run. *)
Theorem Flash_resolves_target (f : FC) (srcDir : string) (w : World) :
  Flash f srcDir EmptyString w = Flash f srcDir (targetName f) w
  /\ (targetName f = EmptyString ->
      Flash f srcDir EmptyString w
      = Done (Returned (Some (ErrorsNew "empty target name"))) [])
  /\ (forall explicitTarget detected,
        explicitTarget <> EmptyString ->
        Flash (set_targetName f detected) srcDir explicitTarget w
        = Flash f srcDir explicitTarget w).
Proof.
  split; [|split].
  - unfold Flash. change (Go.isEmpty EmptyString) with true. cbv iota zeta.
    destruct (Go.isEmpty (targetName f)) eqn:E; rewrite ?E; reflexivity.
  - intros H. unfold Flash. rewrite H. reflexivity.
  - intros t detected Ht. apply isEmpty_false in Ht.
    unfold Flash. rewrite !Ht. reflexivity.
Qed.

(** Property X13.  [Flash] reboots the board into the bootloader only once
    [dfu-util] was found, the build succeeded, the output directory was
    read and a binary for the target was located in it. *)
Theorem reboot_only_with_binary (f : FC) (srcDir explicitTarget : string)
        (w : World) (port : MSP) :
  In (RebootedIntoBootloader port)
     (trace (Flash f srcDir explicitTarget w)) ->
  exists dfu files binary,
    lookPath w = inr dfu /\ makeRun w = None /\ readDir w = inr files
    /\ locateBinary (resolvedTarget f explicitTarget) files = Some binary.
Proof.
  unfold Flash. fold (resolvedTarget f explicitTarget).
  generalize (resolvedTarget f explicitTarget). intros target.
  destruct (Go.isEmpty target); [intros []|].
  destruct (lookPath w) as [err|dfu]; [intros []|].
  unfold printf at 1. destruct (Stdout (opts f)) as [out|]; [|intros []].
  destruct (makeRun w) as [err|].
  { simpl. intros [H|[H|[]]]; discriminate. }
  destruct (readDir w) as [err|files].
  { simpl. intros [H|[H|[]]]; discriminate. }
  destruct (locateBinary target files) as [binary|] eqn:El.
  - intros _. exists dfu, files, binary. repeat split. exact El.
  - simpl. intros [H|[H|[]]]; discriminate.
Qed.

Lemma result_following {A : Type} (t : list Event) (m : Run A) :
  result (following t m) = result m.
Proof. now destruct m. Qed.

Lemma dfuWaitLoop_round (dfuPath : string) (timeout now : Z) (clock : list Z)
      (listings : list ListRun) :
  dfuWaitLoop dfuPath timeout (now :: clock) listings
  = if (timeout <? now)%Z then ret (Returned (Some timedOut, listings))
    else match listings with
         | [] => ret StillPolling
         | run :: listings' =>
             following (listed dfuPath)
               (if hasInternalFlash (dfuLines (Go.Split (output run) Go.NL))
                then ret (Returned (None, listings'))
                else dfuWaitLoop dfuPath timeout clock listings')
         end.
Proof.
  simpl. destruct (timeout <? now)%Z; [reflexivity|].
  destruct listings as [|run listings']; [reflexivity|].
  simpl. destruct (hasInternalFlash _); [reflexivity|].
  unfold following. simpl.
  destruct (dfuWaitLoop dfuPath timeout clock listings'); reflexivity.
Qed.

Lemma dfuWaitLoop_outcomes (dfuPath : string) (timeout : Z) (clock : list Z) :
  forall (listings : list ListRun) (r : option Error)
         (listings' : list ListRun),
    result (dfuWaitLoop dfuPath timeout clock listings)
    = Some (Returned (r, listings')) ->
    exists polled : list ListRun,
      Forall (fun run =>
                hasInternalFlash (dfuLines (Go.Split (output run) Go.NL))
                = false) polled
      /\ ((r = Some timedOut /\ listings = (polled ++ listings')%list
           /\ exists late, In late clock /\ (timeout < late)%Z)
          \/ (r = None
              /\ exists run,
                  listings = (polled ++ run :: listings')%list
                  /\ hasInternalFlash
                       (dfuLines (Go.Split (output run) Go.NL)) = true)).
Proof.
  induction clock as [|now clock IH]; intros listings r listings' H.
  - discriminate.
  - rewrite dfuWaitLoop_round in H. destruct (timeout <? now)%Z eqn:Et.
    + injection H as <- <-. exists []. split; [constructor|]. left.
      repeat split. exists now. split; [now left|]. now apply Z.ltb_lt.
    + destruct listings as [|run listings]; [discriminate|].
      rewrite result_following in H.
      destruct (hasInternalFlash (dfuLines (Go.Split (output run) Go.NL)))
        eqn:Eh.
      * injection H as <- <-. exists []. split; [constructor|]. right.
        split; [reflexivity|]. now exists run.
      * destruct (IH listings r listings' H) as (polled & Hp & Hcases).
        exists (run :: polled). split; [now constructor|].
        destruct Hcases as [(Hr & Hl & late & Hin & Hlate)
                           |(Hr & run' & Hl & Hrun)].
        -- left. repeat split; auto.
           ++ now rewrite Hl.
           ++ exists late. split; [now right|assumption].
        -- right. split; auto. exists run'. split; [now rewrite Hl|assumption].
Qed.

(** Property X17.  When [dfuWait] returns, every listing it polled before
    the last had no internal flash device, and either it timed out on a
    clock reading past thirty seconds from its start, the listings not
    polled being left, or it succeeded on a listing that has an internal
    flash device.  It returns no other error. *)
Theorem dfuWait_outcomes (dfuPath : string) (start : Z) (clock : list Z)
        (listings : list ListRun) (r : option Error)
        (listings' : list ListRun) :
  result (dfuWait dfuPath (start :: clock) listings)
  = Some (Returned (r, listings')) ->
  exists polled : list ListRun,
    Forall (fun run =>
              hasInternalFlash (dfuLines (Go.Split (output run) Go.NL))
              = false) polled
    /\ ((r = Some timedOut /\ listings = (polled ++ listings')%list
         /\ exists late, In late clock /\ (start + thirtySeconds < late)%Z)
        \/ (r = None
            /\ exists run,
                listings = (polled ++ run :: listings')%list
                /\ hasInternalFlash
                     (dfuLines (Go.Split (output run) Go.NL)) = true)).
Proof. apply dfuWaitLoop_outcomes. Qed.

(** Property X18.  [dfuWait] succeeds on the first listing with an
    internal flash device, provided every reading of the clock up to that
    poll is within thirty seconds of the start. *)
Theorem dfuWait_finds_device (dfuPath : string) (start : Z) :
  forall (polled : list ListRun) (ticks : list Z) (now : Z) (clock : list Z)
         (run : ListRun) (listings : list ListRun),
    List.length ticks = List.length polled ->
    Forall (fun t => (t <= start + thirtySeconds)%Z) (now :: ticks) ->
    Forall (fun run =>
              hasInternalFlash (dfuLines (Go.Split (output run) Go.NL))
              = false) polled ->
    hasInternalFlash (dfuLines (Go.Split (output run) Go.NL)) = true ->
    result (dfuWait dfuPath (start :: ticks ++ now :: clock)
                    (polled ++ run :: listings))
    = Some (Returned (None, listings)).
Proof.
  intros polled. unfold dfuWait.
  induction polled as [|p polled IH];
    intros ticks now clock run listings Hlen Hticks Hpolled Hrun.
  - destruct ticks; [|discriminate]. inversion Hticks as [|? ? Hnow _]; subst.
    simpl app. rewrite dfuWaitLoop_round.
    replace (_ <? _)%Z with false by (symmetry; apply Z.ltb_ge; lia).
    rewrite Hrun. reflexivity.
  - destruct ticks as [|t ticks]; [discriminate|].
    inversion Hticks as [|? ? Hnow Hticks']; subst.
    inversion Hticks' as [|? ? Ht Hticks'']; subst.
    inversion Hpolled as [|? ? Hp Hpolled']; subst.
    simpl app. rewrite dfuWaitLoop_round.
    replace (_ <? _)%Z with false by (symmetry; apply Z.ltb_ge; lia).
    rewrite Hp, result_following.
    apply IH; auto.
Qed.

Lemma prefix_length (p s : string) : prefix p s = true -> length p <= length s.
Proof.
  revert s. induction p as [|a p IH]; intros s H; simpl; [lia|].
  destruct s as [|b s]; [discriminate|]. simpl in *.
  destruct (ascii_dec a b); [|discriminate]. apply IH in H. lia.
Qed.

Lemma prefix_drop (p s : string) :
  prefix p s = true -> s = p ++ Go.drop (length p) s.
Proof.
  intros H. pose proof (prefix_length p s H) as Hl.
  apply prefix_correct in H. unfold Go.drop.
  pose proof (substring_split s (length p) (length s - length p)) as Hs.
  rewrite H in Hs. apply Hs. lia.
Qed.



Lemma dfuLines_cons (ll : string) (lines : list string) :
  dfuLines (ll :: lines)
  = if prefix dfuDevicePrefix (Go.Trim ll lineCutset)
    then Go.drop (length dfuDevicePrefix) (Go.Trim ll lineCutset)
         :: dfuLines lines
    else dfuLines lines.
Proof. reflexivity. Qed.

Lemma Split_cons (c : ascii) (s : string) (sep : ascii) :
  Go.Split (String c s) sep
  = if Ascii.eqb c sep then EmptyString :: Go.Split s sep
    else match Go.Split s sep with
         | [] => [Go.str c]
         | piece :: pieces => String c piece :: pieces
         end.
Proof. reflexivity. Qed.

Lemma Split_line (l : string) :
  allChars isDot l = true -> Go.Split l Go.NL = [l].
Proof.
  induction l as [|c l IH]; intros H; [reflexivity|].
  simpl in H. apply andb_true_iff in H. destruct H as [Hc H].
  apply negb_true_iff in Hc. rewrite Split_cons, Hc, (IH H). reflexivity.
Qed.

Lemma Split_app (l rest : string) :
  allChars isDot l = true ->
  Go.Split (l ++ String Go.NL rest) Go.NL = l :: Go.Split rest Go.NL.
Proof.
  induction l as [|c l IH]; intros H.
  - change (EmptyString ++ String Go.NL rest) with (String Go.NL rest).
    now rewrite Split_cons, Ascii.eqb_refl.
  - simpl in H. apply andb_true_iff in H. destruct H as [Hc H].
    apply negb_true_iff in Hc.
    change (String c l ++ String Go.NL rest)
      with (String c (l ++ String Go.NL rest)).
    rewrite Split_cons, Hc, (IH H). reflexivity.
Qed.

(** Splitting at the newlines gives back the lines a text was put
    together from. *)
Lemma Split_unlines (lines : list string) :
  lines <> [] -> Forall (fun ll => allChars isDot ll = true) lines ->
  Go.Split (unlines lines) Go.NL = lines.
Proof.
  induction lines as [|l lines IH]; intros Hne H; [contradiction|].
  inversion H as [|? ? Hl Hlines]; subst.
  destruct lines as [|l2 lines].
  - now apply Split_line.
  - change (unlines (l :: l2 :: lines))
      with (l ++ String Go.NL (unlines (l2 :: lines))).
    rewrite (Split_app _ _ Hl), IH; [reflexivity|discriminate|assumption].
Qed.

Lemma dfuLines_filter (lines : list string) :
  dfuLines lines = map deviceOf (filter isDeviceLine lines).
Proof.
  induction lines as [|ll lines IH]; [reflexivity|].
  rewrite dfuLines_cons. cbn [filter]. unfold isDeviceLine at 1.
  unfold Go.HasPrefix.
  destruct (prefix dfuDevicePrefix (Go.Trim ll lineCutset));
    [cbn [map]; fold (deviceOf ll)|]; now rewrite IH.
Qed.

Lemma dfuList_run (dfuPath : string) (run : ListRun) :
  dfuList dfuPath run
  = Done (dfuLines (Go.Split (output run) Go.NL), None) (listed dfuPath).
Proof. reflexivity. Qed.

(** Property X15.  On an output made of the given lines, [dfuList]
    returns, in the order of the output and as many times as they occur,
    the lines that begin with the device prefix once newlines, carriage
    returns, tabs and spaces are trimmed off their ends, each trimmed so
    and without the prefix; it runs the lister once and returns no
    error. *)
Theorem dfuList_devices (dfuPath : string) (run : ListRun)
        (lines : list string) :
  Forall (fun ll => allChars isDot ll = true) lines ->
  output run = unlines lines ->
  dfuList dfuPath run
  = Done (map deviceOf (filter isDeviceLine lines), None) (listed dfuPath).
Proof.
  intros Hlines Hout. rewrite dfuList_run, Hout.
  destruct lines as [|l lines]; [reflexivity|].
  rewrite Split_unlines by (discriminate || assumption).
  now rewrite dfuLines_filter.
Qed.






(** *** Extraction without a match *)

Lemma Contains_unfold (s sub : string) :
  Go.Contains s sub
  = prefix sub s
    || match s with
       | EmptyString => false
       | String _ s' => Go.Contains s' sub
       end.
Proof. destruct s; reflexivity. Qed.

Lemma no_literal_no_match (lit : string) (r : regex) (s : string) :
  Go.Contains s lit = false -> FindStringSubmatch (Cat (Lit lit) r) s = [].
Proof.
  induction s as [|c s IH]; intros H; rewrite Contains_unfold in H;
    apply orb_false_iff in H; destruct H as [Hp Hc];
    rewrite find_unfold;
    change (ways (Cat (Lit lit) r) ?t EmptyString)
      with (flat_map (fun w : way =>
                        let '(m1, unread, cap1) := w in
                        map (after m1) (ways r unread cap1))
                     (match stripPrefix lit t with
                      | Some unread => [(lit, unread, EmptyString)]
                      | None => []
                      end));
    rewrite (stripPrefix_prefix _ _ Hp); simpl; auto.
Qed.

Lemma dfuFlash_unparsed (f : FC) (dfuPath binaryPath : string) (run : ListRun)
      (listings : list ListRun) (flashRun : option Error) :
  let device := flashDevice (dfuLines (Go.Split (output run) Go.NL)) in
  Go.isEmpty (regexpFind altPattern device)
  || Go.isEmpty (regexpFind serialPattern device)
  || Go.isEmpty (regexpFind offsetPattern device) = true ->
  dfuFlash f dfuPath binaryPath (run :: listings) flashRun
  = Done (Returned (Some (flashParametersError device))) (listed dfuPath).
Proof.
  intros device He. unfold dfuFlash, dfuList. rewrite bind_assoc.
  unfold emit. rewrite bind_Done, bind_ret_l. fold device.
  rewrite He. reflexivity.
Qed.

(** Property X19.  When the device line has no [alt=], no [serial=] with
    its opening quote, or no [Internal Flash  /], [dfuFlash] returns the
    error carrying that line after the one listing, without printing or
    flashing. *)
Theorem missing_field_fails (f : FC) (dfuPath binaryPath : string)
        (run : ListRun) (listings : list ListRun) (flashRun : option Error) :
  let device := flashDevice (dfuLines (Go.Split (output run) Go.NL)) in
  Go.Contains device "alt=" = false
  \/ Go.Contains device ("serial=" ++ Go.str Go.DQ) = false
  \/ Go.Contains device "Internal Flash  /" = false ->
  dfuFlash f dfuPath binaryPath (run :: listings) flashRun
  = Done (Returned (Some (flashParametersError device))) (listed dfuPath).
Proof.
  intros device H. apply dfuFlash_unparsed. fold device.
  unfold regexpFind.
  destruct H as [H|[H|H]].
  - unfold altPattern. rewrite no_literal_no_match by assumption. reflexivity.
  - unfold serialPattern. rewrite (no_literal_no_match _ _ device H).
    simpl. now rewrite orb_true_r.
  - unfold offsetPattern. rewrite (no_literal_no_match _ _ device H).
    simpl. now rewrite !orb_true_r.
Qed.

Lemma flashDevice_none (devices : list string) :
  hasInternalFlash devices = false -> flashDevice devices = EmptyString.
Proof.
  unfold hasInternalFlash. induction devices as [|dev devices IH]; simpl.
  - reflexivity.
  - destruct (Go.Contains dev internalFlashMarker); [discriminate|exact IH].
Qed.

(** Property X20.  When the listing [dfuFlash] makes has no internal flash
    device, it fails with the error that carries an empty device line. *)
Theorem no_device_fails (f : FC) (dfuPath binaryPath : string)
        (run : ListRun) (listings : list ListRun) (flashRun : option Error) :
  hasInternalFlash (dfuLines (Go.Split (output run) Go.NL)) = false ->
  dfuFlash f dfuPath binaryPath (run :: listings) flashRun
  = Done (Returned (Some (flashParametersError EmptyString)))
         (listed dfuPath).
Proof.
  intros H.
  pose proof (flashDevice_none (dfuLines (Go.Split (output run) Go.NL)) H)
    as Hn.
  rewrite <- Hn. apply dfuFlash_unparsed. rewrite Hn. reflexivity.
Qed.

(** Property X21.  Whatever [dfuFlash] runs besides the listing is the
    flasher with an alt setting, a serial number and an offset that are
    all non-empty, the offset followed by [:leave], and the binary path. *)
Theorem flasher_gets_all_parameters (f : FC) (dfuPath binaryPath : string)
        (listings : list ListRun) (flashRun : option Error)
        (name : string) (args env : list string) (dir : string) :
  In (Executed name args env dir)
     (trace (dfuFlash f dfuPath binaryPath listings flashRun)) ->
  args = ["--list"]
  \/ exists alt serial offset,
       args = ["-a"; alt; "-S"; serial; "-s"; offset ++ ":leave";
               "-D"; binaryPath]
       /\ alt <> EmptyString /\ serial <> EmptyString
       /\ offset <> EmptyString.
Proof.
  unfold dfuFlash. destruct listings as [|run listings]; [intros []|].
  unfold dfuList. rewrite bind_assoc. unfold emit.
  rewrite bind_Done, bind_ret_l.
  set (device := flashDevice (dfuLines (Go.Split (output run) Go.NL))).
  destruct (Go.isEmpty (regexpFind altPattern device)) eqn:Ea.
  { simpl. intros [H|[]]. injection H as _ <- _ _. now left. }
  destruct (Go.isEmpty (regexpFind serialPattern device)) eqn:Es.
  { simpl. intros [H|[]]. injection H as _ <- _ _. now left. }
  destruct (Go.isEmpty (regexpFind offsetPattern device)) eqn:Eo.
  { simpl. intros [H|[]]. injection H as _ <- _ _. now left. }
  apply isEmpty_false in Ea, Es, Eo.
  unfold printf. destruct (Stdout (opts f)) as [w|]; simpl.
  - intros [H|[H|[H|[]]]]; try discriminate.
    + injection H as _ <- _ _. now left.
    + injection H as _ <- _ _. right.
      exists (regexpFind altPattern device), (regexpFind serialPattern device),
        (regexpFind offsetPattern device). repeat split; assumption.
  - intros [H|[]]. injection H as _ <- _ _. now left.
Qed.

(** *** Reset, build information, patching *)

Section HandlerOutput.

Variable mspFCFeatureDebugTrace : Z.
Variable serialFunctionMSP : Z.
Variable serialFunctionDebugTrace : Z.

Local Notation "'handle'" :=
  (handleFrame mspFCFeatureDebugTrace serialFunctionMSP
               serialFunctionDebugTrace).
Local Notation "'receive'" :=
  (StartUpdating mspFCFeatureDebugTrace serialFunctionMSP
                 serialFunctionDebugTrace).

(** Property X8.  [reset] is idempotent, and the session it leaves allows
    no enablement, has no detected target name, prints no summary, sends no
    command on whatever frame comes first, and cannot flash without an
    explicit target. *)
Theorem reset_forgets (f : FC) :
  reset (reset f) = reset f
  /\ shouldEnableDebugTrace (reset f) = false
  /\ HasDetectedTargetName (reset f) = false
  /\ printInfo (reset f) = Done tt []
  /\ (forall fr, commands (trace (handle (reset f) fr)) = [])
  /\ (forall srcDir w,
        Flash (reset f) srcDir EmptyString w
        = Done (Returned (Some (ErrorsNew "empty target name"))) []).
Proof.
  assert (Hpol : shouldEnableDebugTrace (reset f) = false).
  { unfold shouldEnableDebugTrace. simpl. now rewrite andb_false_r. }
  repeat split; try assumption.
  intros fr. apply prints_no_commands. now apply handler_prints_only.
Qed.

Lemma string_of_list_byte_app (a b : list byte) :
  string_of_list_byte (a ++ b)
  = string_of_list_byte a ++ string_of_list_byte b.
Proof.
  unfold string_of_list_byte. induction a as [|x a IH]; simpl; congruence.
Qed.

Lemma length_string_of_list_byte (a : list byte) :
  length (string_of_list_byte a) = List.length a.
Proof.
  unfold string_of_list_byte. induction a as [|x a IH]; simpl; congruence.
Qed.

(** Property X7.  A build-info payload of at least 19 bytes is printed in
    three pieces that are the payload cut after 11 and after 19 bytes: the
    date, the time and the revision put back together are the payload. *)
Theorem build_info_pieces (f : FC) (fr : MSPFrame) (w : Writer) :
  Code fr = mspBuildInfo -> 19 <= List.length (Payload fr) ->
  Stdout (opts f) = Some w ->
  exists buildDate buildTime rev,
    handle f fr
    = Done f [Printed w "Build %s (built on %s @ %s)\n"
                      [VString rev; VString buildDate; VString buildTime]]
    /\ buildDate ++ buildTime ++ rev = string_of_list_byte (Payload fr)
    /\ length buildDate = 11 /\ length buildTime = 8.
Proof.
  intros Hc Hl Hw.
  exists (string_of_list_byte (firstn 11 (Payload fr))),
    (string_of_list_byte (firstn 8 (skipn 11 (Payload fr)))),
    (string_of_list_byte (skipn 19 (Payload fr))).
  split; [|split; [|split]].
  - unfold handleFrame. rewrite Hc. rewrite !sliced_ok by lia.
    rewrite !bind_ret_l. rewrite slicedFrom_ok by lia.
    rewrite bind_ret_l. unfold printf. rewrite Hw.
    reflexivity.
  - rewrite <- !string_of_list_byte_app. f_equal.
    replace (skipn 19 (Payload fr)) with (skipn 8 (skipn 11 (Payload fr)))
      by (rewrite skipn_skipn; reflexivity).
    now rewrite !firstn_skipn.
  - rewrite length_string_of_list_byte, length_firstn. lia.
  - rewrite length_string_of_list_byte, length_firstn, length_skipn. lia.
Qed.

(** Property X6.  When enablement is allowed and the mask of a feature-set
    frame lacks the debug-trace bit, the handler stores the mask with the
    bit added, announces it, and sends that same mask in one set-feature
    command followed by one persist command. *)
Theorem feature_patch_sent (f : FC) (fr : MSPFrame) (m : Z) (rest : list byte)
        (port : MSP) (w : Writer) :
  Code fr = mspFeature -> ReadUint32 (Payload fr) = inr (m, rest) ->
  Z.land m mspFCFeatureDebugTrace = 0%Z -> shouldEnableDebugTrace f = true ->
  msp f = Some port -> Stdout (opts f) = Some w ->
  handle f fr
  = Done (set_features f (Z.lor m mspFCFeatureDebugTrace))
         [Printed w "Enabling FEATURE_DEBUG_TRACE\n" [];
          Wrote port mspSetFeature [VUint32 (Z.lor m mspFCFeatureDebugTrace)];
          Wrote port mspEepromWrite []].
Proof.
  intros Hc Hr Hb Hpol Hp Hw. unfold handleFrame. rewrite Hc, Hr.
  cbv beta iota zeta.
  change (features (set_features f m)) with m.
  change (shouldEnableDebugTrace (set_features f m))
    with (shouldEnableDebugTrace f).
  rewrite Hb, Hpol. simpl andb. cbv iota.
  unfold printf, WriteCmd. simpl. rewrite Hw, Hp. reflexivity.
Qed.

End HandlerOutput.

(** Property X14.  Among the candidates with the latest modification
    time [Flash] goes on with the one the directory lists first: when
    every candidate listed before an entry is strictly older than it and
    none listed after it is newer, the path handed to [dfuFlash] is the
    path of that entry. *)
Theorem first_among_newest (f : FC) (srcDir targetName : string) (w : World)
        (out : Writer) (dfu : string) (port : MSP)
        (before : list FileInfo) (b : FileInfo) (rest : list FileInfo)
        (tw : list Event) (listings' : list ListRun) :
  targetName <> EmptyString -> Stdout (opts f) = Some out ->
  lookPath w = inr dfu -> makeRun w = None ->
  readDir w = inr (before ++ b :: rest)%list ->
  (exists stem, Name b = stem ++ targetName ++ ".bin") ->
  (forall c, In c before ->
     (exists stem, Name c = stem ++ targetName ++ ".bin") ->
     (ModTime c < ModTime b)%Z) ->
  (forall c, In c rest ->
     (exists stem, Name c = stem ++ targetName ++ ".bin") ->
     (ModTime c <= ModTime b)%Z) ->
  msp f = Some port -> rebootIntoBootloader w = None ->
  dfuWait dfu (clock w) (listings w) = Done (Returned (None, listings')) tw ->
  Flash f srcDir targetName w
  = following (flashPreparation out port srcDir targetName ++ tw)
              (dfuFlash f dfu (Go.Join (Go.Join srcDir "obj") (Name b))
                        listings' (flashRun w)).
Proof.
  intros Ht Hw Hl Hm Hr Hb Hbefore Hrest Hp Hreb Hwait.
  apply Flash_selected with (files := (before ++ b :: rest)%list);
    try assumption.
  apply locate_first_newest.
  - now apply isCandidate_iff.
  - intros c Hin Hc. apply Hbefore; [assumption|now apply isCandidate_iff].
  - intros c Hin Hc. apply Hrest; [assumption|now apply isCandidate_iff].
Qed.

(** ** The further properties at concrete inputs *)

(** A listing with a device line that has the marker and nothing else. *)
Definition bareListing : ListRun :=
  mkListRun None (dfuDevicePrefix ++ "@Internal Flash  /0x08000000/").

(** A world in which two binaries of the target are equally new. *)
Definition tieWorld : World :=
  mkWorld (inr "/usr/bin/dfu-util") None
          (inr [mkFileInfo "TARGET1.hex" 9; mkFileInfo "barTARGET1.bin" 5;
                mkFileInfo "fooTARGET1.bin" 5]) None
          [0; 1]%Z [exampleListing; exampleListing] None.

(** An output of the lister as [dfu-util --list] lays it out, and one
    that announces three devices, the last two with internal flash. *)
Definition listerOutput : list string :=
  ["dfu-util 0.9"; EmptyString;
   deviceLine exampleLine ++ Go.str Go.CR;
   "Found Runtime: [0483:5740] ver=0200";
   String Go.TAB (deviceLine "[0483:df11] name=Option Bytes")].


(** A world in which the reboot command fails. *)
Definition rebootFailsWorld : World :=
  mkWorld (inr "/usr/bin/dfu-util") None
          (inr [mkFileInfo "inav_1.9.0_TARGET1.bin" 7])
          (Some (ExternalError "write failed")) [] [] None.

Lemma no_commands_without_policy_witness :
  commands
    (trace (handleFrame inavFeatureDebugTrace inavFunctionMSP
              inavFunctionDebugTrace (sampleSession false)
              (mkFrame mspFeature [x00; x00; x00; x00])))
  = [].
Proof.
  exact (no_commands_without_policy
           inavFeatureDebugTrace inavFunctionMSP inavFunctionDebugTrace
           (sampleSession false) (mkFrame mspFeature [x00; x00; x00; x00])
           eq_refl).
Defined.

Lemma handler_footprint_witness :
  opts (set_features (sampleSession true) inavFeatureDebugTrace)
  = opts (sampleSession true)
  /\ msp (set_features (sampleSession true) inavFeatureDebugTrace)
     = msp (sampleSession true)
  /\ Forall (own (sampleSession true))
            [Printed OsStdout "Enabling FEATURE_DEBUG_TRACE\n" [];
             Wrote (Port 0) mspSetFeature [VUint32 inavFeatureDebugTrace];
             Wrote (Port 0) mspEepromWrite []]
  /\ (changesSession mspFeature = false ->
      set_features (sampleSession true) inavFeatureDebugTrace
      = sampleSession true).
Proof.
  exact (handler_footprint
           inavFeatureDebugTrace inavFunctionMSP inavFunctionDebugTrace
           (sampleSession true) (mkFrame mspFeature [x00; x00; x00; x00])
           _ _ eq_refl).
Defined.

Lemma serial_patch_is_stable_witness :
  handleFrame inavFeatureDebugTrace inavFunctionMSP inavFunctionDebugTrace
              (sampleSession true)
              (mkFrame mspCFSerialConfig [x00; x02; x00; x01; x01; x80])
  = Done (sampleSession true) [].
Proof.
  destruct (serial_patch_is_stable
              inavFeatureDebugTrace inavFunctionMSP inavFunctionDebugTrace
              (sampleSession true)
              (mkFrame mspCFSerialConfig [x00; x02; x00; x01; x01; x80])
              [mkSerialConfig x00 2;
               mkSerialConfig x01 (Z.lor 1 inavFunctionDebugTrace)]
              eq_refl eq_refl) as [_ H].
  exact (H [mkSerialConfig x00 2] (mkSerialConfig x01 1) [] eq_refl eq_refl).
Defined.

Lemma feature_patch_sent_witness :
  handleFrame inavFeatureDebugTrace inavFunctionMSP inavFunctionDebugTrace
              (sampleSession true) (mkFrame mspFeature [x02; x00; x00; x00])
  = Done (set_features (sampleSession true) (Z.lor 2 inavFeatureDebugTrace))
         [Printed OsStdout "Enabling FEATURE_DEBUG_TRACE\n" [];
          Wrote (Port 0) mspSetFeature
                [VUint32 (Z.lor 2 inavFeatureDebugTrace)];
          Wrote (Port 0) mspEepromWrite []].
Proof.
  exact (feature_patch_sent
           inavFeatureDebugTrace inavFunctionMSP inavFunctionDebugTrace
           (sampleSession true) (mkFrame mspFeature [x02; x00; x00; x00])
           2%Z [] (Port 0) OsStdout eq_refl eq_refl eq_refl eq_refl
           eq_refl eq_refl).
Defined.

Lemma build_info_pieces_witness :
  exists buildDate buildTime rev,
    handleFrame inavFeatureDebugTrace inavFunctionMSP inavFunctionDebugTrace
                (sampleSession false)
                (mkFrame mspBuildInfo (List.repeat x41 26))
    = Done (sampleSession false)
           [Printed OsStdout "Build %s (built on %s @ %s)\n"
                    [VString rev; VString buildDate; VString buildTime]]
    /\ buildDate ++ buildTime ++ rev
       = string_of_list_byte (List.repeat x41 26)
    /\ length buildDate = 11 /\ length buildTime = 8.
Proof.
  apply (build_info_pieces
           inavFeatureDebugTrace inavFunctionMSP inavFunctionDebugTrace
           (sampleSession false) (mkFrame mspBuildInfo (List.repeat x41 26))
           OsStdout); [reflexivity| |reflexivity].
  simpl. lia.
Defined.

Lemma reconnect_never_gives_up_witness :
  reconnect (sampleSession false) (List.repeat None 3)
  = Done None (closing (sampleSession false) ++ List.repeat (Slept 1) 3)
  /\ StartUpdating inavFeatureDebugTrace inavFunctionMSP
                   inavFunctionDebugTrace (sampleSession false)
                   [GotEOF; GotFrame (mkFrame mspFCVariant [x49])]
                   (List.repeat None 3)
     = Done Reconnecting
            (Printed OsStdout "Board disconnected, trying to reconnect...\n" []
             :: closing (sampleSession false) ++ List.repeat (Slept 1) 3).
Proof.
  exact (reconnect_never_gives_up
           inavFeatureDebugTrace inavFunctionMSP inavFunctionDebugTrace
           (sampleSession false) OsStdout 3
           [GotFrame (mkFrame mspFCVariant [x49])] eq_refl).
Defined.

Lemma receive_loop_composes_witness :
  StartUpdating inavFeatureDebugTrace inavFunctionMSP inavFunctionDebugTrace
                (sampleSession false)
                ([GotFrame (mkFrame mspFCVariant [x49])]
                 ++ [GotFrame (mkFrame mspReboot [])]) []
  = following
      [Printed OsStdout infoFormat
               (infoArgs (set_variant (sampleSession false) "I"))]
      (StartUpdating inavFeatureDebugTrace inavFunctionMSP
                     inavFunctionDebugTrace
                     (set_variant (sampleSession false) "I")
                     [GotFrame (mkFrame mspReboot [])] []).
Proof.
  exact (receive_loop_composes
           inavFeatureDebugTrace inavFunctionMSP inavFunctionDebugTrace
           [GotFrame (mkFrame mspFCVariant [x49])] (sampleSession false) []
           [GotFrame (mkFrame mspReboot [])]
           (set_variant (sampleSession false) "I") [] _ eq_refl).
Defined.

Lemma Flash_resolves_target_witness :
  Flash (sampleSession false) "inav" EmptyString listerFailsWorld
  = Done (Returned (Some (ErrorsNew "empty target name"))) []
  /\ Flash (set_targetName (sampleSession false) "OTHER") "inav" "TARGET1"
           listerFailsWorld
     = Flash (sampleSession false) "inav" "TARGET1" listerFailsWorld.
Proof.
  destruct (Flash_resolves_target (sampleSession false) "inav"
                                  listerFailsWorld) as (_ & H1 & H2).
  split; [exact (H1 eq_refl)|].
  apply H2. discriminate.
Defined.

Lemma reboot_only_with_binary_witness :
  exists dfu files binary,
    lookPath rebootFailsWorld = inr dfu /\ makeRun rebootFailsWorld = None
    /\ readDir rebootFailsWorld = inr files
    /\ locateBinary (resolvedTarget (sampleSession false) "TARGET1") files
       = Some binary.
Proof.
  apply (reboot_only_with_binary (sampleSession false) "inav" "TARGET1"
                                 rebootFailsWorld (Port 0)).
  simpl. right. right. right. left. reflexivity.
Defined.

Lemma first_among_newest_witness :
  Flash (sampleSession false) "." "TARGET1" tieWorld
  = Done (Returned None)
         (flashPreparation OsStdout (Port 0) "." "TARGET1"
          ++ [Executed "/usr/bin/dfu-util" ["--list"] [] EmptyString;
              Executed "/usr/bin/dfu-util" ["--list"] [] EmptyString;
              Printed OsStdout "Flashing %s via DFU to offset %s...\n"
                      [VString "barTARGET1.bin"; VString "0x08000000"];
              Executed "/usr/bin/dfu-util"
                       ["-a"; "0"; "-S"; "3276365D3336";
                        "-s"; "0x08000000:leave";
                        "-D"; "obj/barTARGET1.bin"] [] EmptyString]).
Proof.
  apply (first_among_newest
           (sampleSession false) "." "TARGET1" tieWorld OsStdout
           "/usr/bin/dfu-util" (Port 0)
           [mkFileInfo "TARGET1.hex" 9] (mkFileInfo "barTARGET1.bin" 5)
           [mkFileInfo "fooTARGET1.bin" 5]
           [Executed "/usr/bin/dfu-util" ["--list"] [] EmptyString]
           [exampleListing]); try reflexivity.
  - discriminate.
  - now exists "bar".
  - intros c [<-|[]] [stem Hs]. exfalso.
    assert (H : Go.HasSuffix "TARGET1.hex" ".bin" = true)
      by (apply HasSuffix_iff; exists (stem ++ "TARGET1");
          rewrite append_assoc; exact Hs).
    discriminate H.
  - intros c [<-|[]] _. simpl. lia.
Defined.

Lemma dfuList_devices_witness :
  dfuList "/usr/bin/dfu-util" (mkListRun None (unlines listerOutput))
  = Done ([exampleLine; "[0483:df11] name=Option Bytes"], None)
         (listed "/usr/bin/dfu-util").
Proof.
  apply (dfuList_devices "/usr/bin/dfu-util"
           (mkListRun None (unlines listerOutput)) listerOutput).
  - repeat constructor.
  - reflexivity.
Defined.


Lemma dfuWait_outcomes_witness :
  exists polled : list ListRun,
    Forall (fun run =>
              hasInternalFlash (dfuLines (Go.Split (output run) Go.NL))
              = false) polled
    /\ ((Some timedOut = Some timedOut
         /\ listings listerFailsWorld = (polled ++ [failedListing])%list
         /\ exists late,
             In late [1; 10000000000; 20000000000; 30000000001]%Z
             /\ (0 + thirtySeconds < late)%Z)
        \/ (Some timedOut = None
            /\ exists run,
                listings listerFailsWorld
                = (polled ++ run :: [failedListing])%list
                /\ hasInternalFlash
                     (dfuLines (Go.Split (output run) Go.NL)) = true)).
Proof.
  exact (dfuWait_outcomes "/usr/bin/dfu-util" 0
           [1; 10000000000; 20000000000; 30000000001]%Z
           (listings listerFailsWorld) (Some timedOut) [failedListing]
           eq_refl).
Defined.

Lemma dfuWait_finds_device_witness :
  result (dfuWait "/usr/bin/dfu-util" (0 :: [1] ++ 2 :: [])%Z
                  ([failedListing] ++ exampleListing :: []))
  = Some (Returned (None, [])).
Proof.
  apply (dfuWait_finds_device "/usr/bin/dfu-util" 0 [failedListing]
                              [1%Z] 2%Z [] exampleListing []).
  - reflexivity.
  - repeat constructor; discriminate.
  - repeat constructor.
  - vm_compute. reflexivity.
Defined.

Lemma missing_field_fails_witness :
  dfuFlash (sampleSession false) "/usr/bin/dfu-util" "inav/obj/x.bin"
           [bareListing] None
  = Done (Returned
            (Some (flashParametersError "@Internal Flash  /0x08000000/")))
         (listed "/usr/bin/dfu-util").
Proof.
  apply (missing_field_fails (sampleSession false) "/usr/bin/dfu-util"
                             "inav/obj/x.bin" bareListing [] None).
  left. vm_compute. reflexivity.
Defined.

Lemma no_device_fails_witness :
  dfuFlash (sampleSession false) "/usr/bin/dfu-util" "inav/obj/x.bin"
           [failedListing] None
  = Done (Returned (Some (flashParametersError EmptyString)))
         (listed "/usr/bin/dfu-util").
Proof.
  exact (no_device_fails (sampleSession false) "/usr/bin/dfu-util"
                         "inav/obj/x.bin" failedListing [] None eq_refl).
Defined.

Lemma flasher_gets_all_parameters_witness :
  ["-a"; "0"; "-S"; "3276365D3336"; "-s"; "0x08000000:leave"; "-D";
   "inav/obj/x.bin"] = ["--list"]
  \/ exists alt serial offset,
       ["-a"; "0"; "-S"; "3276365D3336"; "-s"; "0x08000000:leave"; "-D";
        "inav/obj/x.bin"]
       = ["-a"; alt; "-S"; serial; "-s"; offset ++ ":leave"; "-D";
          "inav/obj/x.bin"]
       /\ alt <> EmptyString /\ serial <> EmptyString
       /\ offset <> EmptyString.
Proof.
  apply (flasher_gets_all_parameters
           (sampleSession false) "/usr/bin/dfu-util" "inav/obj/x.bin"
           [exampleListing] None "/usr/bin/dfu-util" _ [] EmptyString).
  vm_compute. right. right. left. reflexivity.
Defined.
